(** * telegram2rss: the channel scraper [TGChannel.fetch_to_python]

    A shallow embedding of [src/telegram2rss/channel.py].  Python strings are
    byte strings and exceptions are values of an error monad.  What the
    method takes from outside the file (the [requests] session, the [bs4]
    query engine, [urllib.parse], and the selector table of
    [telegram_types], which is not part of the sources at hand) is gathered
    in the class [Env], over which every definition is parametrised. *)

From Stdlib Require Import String Ascii List ZArith Lia Bool.
Import ListNotations.
Open Scope string_scope.

(** ** Exceptions and the error monad *)

(** The Python exceptions that [fetch_to_python] can raise. *)
Inductive exn : Type :=
| FeedEnd
| TypeError
| KeyError
| AttributeError
| IndexError
| ValueError.

Definition exn_eqb (a b : exn) : bool :=
  match a, b with
  | FeedEnd, FeedEnd | TypeError, TypeError | KeyError, KeyError
  | AttributeError, AttributeError | IndexError, IndexError
  | ValueError, ValueError => true
  | _, _ => false
  end.

(** A computation either raises ([inl]) or returns ([inr]). *)
Definition result (A : Type) : Type := (exn + A)%type.

Definition ret {A} (a : A) : result A := inr a.
Definition raise {A} (e : exn) : result A := inl e.

Definition bind {A B} (m : result A) (k : A -> result B) : result B :=
  match m with
  | inl e => inl e
  | inr a => k a
  end.

Notation "x <- m ;; k" := (bind m (fun x => k))
  (at level 61, m at next level, right associativity).

(** [try: m except: e => h] runs [m]; when it raises [e] the handler [h]
    gives the value, any other exception propagates. *)
Definition try_except {A} (m : result A) (e : exn) (h : result A) : result A :=
  match m with
  | inl e' => if exn_eqb e' e then h else inl e'
  | inr a => inr a
  end.

Definition raises {A} (m : result A) : Prop := exists e, m = inl e.

(** ** Python built-ins used by the scraper *)

(** [s.split(sep)] for a one-character separator. *)
Fixpoint split (sep : ascii) (s : string) : list string :=
  match s with
  | EmptyString => [EmptyString]
  | String c s' =>
      if Ascii.eqb c sep then EmptyString :: split sep s'
      else match split sep s' with
           | [] => [String c EmptyString]
           | w :: ws => String c w :: ws
           end
  end.

(** [l[i]] for a non-negative integer index. *)
Definition index {A} (l : list A) (i : nat) : result A :=
  match nth_error l i with
  | Some a => ret a
  | None => raise IndexError
  end.

(** [d[k]] on a dictionary kept as an association list. *)
Fixpoint dict_get {V} (d : list (string * V)) (k : string) : result V :=
  match d with
  | [] => raise KeyError
  | (k', v) :: d' => if String.eqb k' k then ret v else dict_get d' k
  end.

(** [a, b = tuple(l)]: unpacking into exactly two names. *)
Definition unpack2 {A} (l : list A) : result (A * A) :=
  match l with
  | [a; b] => ret (a, b)
  | _ => raise ValueError
  end.

(** ** Markup fragments (the [bs4] collaborator) *)

(** A parsed element: its attributes, its [.text], and its child elements. *)
#[warnings="-register-all"]
Inductive Tag : Type :=
| mkTag (attrs : list (string * string)) (text : string) (children : list Tag).

Definition attrs (t : Tag) : list (string * string) :=
  match t with mkTag a _ _ => a end.

Definition text (t : Tag) : string :=
  match t with mkTag _ s _ => s end.

Definition children (t : Tag) : list Tag :=
  match t with mkTag _ _ c => c end.

(** [x[key]] where [x] is what [select_one] returned: subscripting [None]
    is a [TypeError], a missing attribute is a [KeyError]. *)
Definition getitem (x : option Tag) (key : string) : result string :=
  match x with
  | None => raise TypeError
  | Some t => dict_get (attrs t) key
  end.

(** [x.text] where [x] is what [select_one] returned. *)
Definition get_text (x : option Tag) : result string :=
  match x with
  | None => raise AttributeError
  | Some t => ret (text t)
  end.

(** [rs[key]] where [rs] is the list returned by [select] and [key] a
    string: lists are indexed by integers only. *)
Definition resultset_getitem (rs : list Tag) (key : string) : result string :=
  raise TypeError.

(** [rs.text] where [rs] is the list returned by [select]. *)
Definition resultset_text (rs : list Tag) : result string :=
  raise AttributeError.

(** ** The selector table of [telegram_types] *)

Record TGType : Type := mkTGType { name : string; selector : string }.

Record Registry : Type := mkRegistry {
  TEXT : TGType;
  PHOTO : TGType;
  VIDEO : TGType;
  VOICE : TGType;
  DOCUMENT : TGType;
  LOCATION : TGType;
  POLL : TGType;
  UNSUPPORTED_MEDIA : TGType;
  MESSAGE_AUTHOR : TGType;
  MESSAGE_DATE : TGType;
  MESSAGE_VIEWS : TGType;
  MESSAGE_VOTERS : TGType;
  MESSAGE_NUMBER : TGType;
  VIDEO_DURATION : TGType;
  VIDEO_THUMB : TGType;
  VOICE_URL : TGType;
  VOICE_DURATION : TGType;
  DOCUMENT_TITLE : TGType;
  DOCUMENT_SIZE : TGType;
  POLL_QUESTION : TGType;
  POLL_TYPE : TGType;
  POLL_OPTIONS : TGType;
  POLL_OPTION_PERCENT : TGType;
  POLL_OPTION_VALUE : TGType;
  UNSUPPORTED_MEDIA_URL : TGType
}.

(** ** Output records *)

Record PollOption : Type := mkPollOption { percent : string; value : string }.

(** One entry of a message's [contents]: the dictionaries built by the eight
    extraction loops.  The first field of every constructor is the value
    stored under the key ["type"]. *)
Inductive Content : Type :=
| CText (type content : string)
| CPhoto (type url : string)
| CVideo (type url thumbnail duration : string)
| CVoice (type url duration : string)
| CDocument (type url : string) (title size : list Tag)
| CLocation (type url latitude longitude : string)
| CPoll (type poll_question poll_type : string) (poll_options : list PollOption)
| CUnsupported (type url : string).

Record Message : Type := mkMessage {
  number : string;
  author : string;
  date : string;
  views : option string;
  voters : option string;
  contents : list Content
}.

Definition TELEGRAM_URL : string := "https://t.me".

(** The session object between calls. *)
Record TGChannel : Type := mkTGChannel {
  channel_id : string;
  position : option string
}.

(** One call of [session_object.get(url, params={"before": position})]. *)
Definition Request : Type := (string * option string)%type.

Definition position_eqb (p : option string) (s : string) : bool :=
  match p with
  | Some p' => String.eqb p' s
  | None => false
  end.

(** ** The environment of [fetch_to_python] *)

Class Env : Type := {
  (** [tag.select(css)] of [bs4]: every match, in document order. *)
  select : string -> Tag -> list Tag;
  (** The constants imported from [telegram_types]. *)
  T : Registry;
  (** [urlparse(url).query] and [parse_qs] of [urllib.parse]. *)
  urlparse_query : string -> string;
  parse_qs : string -> list (string * list string);
  (** [BeautifulSoup(session_object.get(url, params).text, "lxml")]: the
      document the server answers a request with, as a function of the
      address and of the ["before"] parameter. *)
  session_get : string -> option string -> Tag
}.

Section Channel.

Context {env : Env}.

(** [tag.select_one(css)]: the first match, or [None]. *)
Definition select_one (css : string) (t : Tag) : option Tag :=
  hd_error (select css t).

(** *** The message loop body: metadata (lines 124-145) *)

Definition message_number (bubble : Tag) : result string :=
  href <- getitem (select_one (selector (MESSAGE_NUMBER T)) bubble) "href" ;;
  index (split "/" href) 4.

Definition message_author (bubble : Tag) : result string :=
  get_text (select_one (selector (MESSAGE_AUTHOR T)) bubble).

Definition message_date (bubble : Tag) : result string :=
  getitem (select_one (selector (MESSAGE_DATE T)) bubble) "datetime".

Definition optional_text (css : string) (bubble : Tag) : result (option string) :=
  try_except
    (s <- get_text (select_one css bubble) ;; ret (Some s))
    AttributeError
    (ret None).

(** *** The eight extraction loops (lines 147-268)

    Every loop appends to the [contents] list it is handed. *)

Fixpoint text_loop (texts : list Tag) (contents : list Content)
  : result (list Content) :=
  match texts with
  | [] => ret contents
  | t :: rest =>
      text_loop rest (contents ++ [CText (name (TEXT T)) (text t)])
  end.

Definition style_url (style : string) : result string :=
  index (split "'" style) 1.

Fixpoint photo_loop (photos : list Tag) (contents : list Content)
  : result (list Content) :=
  match photos with
  | [] => ret contents
  | photo :: rest =>
      style <- getitem (Some photo) "style" ;;
      photo_url <- style_url style ;;
      photo_loop rest (contents ++ [CPhoto (name (PHOTO T)) photo_url])
  end.

Fixpoint video_loop (videos : list Tag) (contents : list Content)
  : result (list Content) :=
  match videos with
  | [] => ret contents
  | video :: rest =>
      video_url <- getitem (Some video) "href" ;;
      style <- getitem (select_one (selector (VIDEO_THUMB T)) video) "style" ;;
      video_thumb_url <- style_url style ;;
      video_duration <- get_text (select_one (selector (VIDEO_DURATION T)) video) ;;
      video_loop rest
        (contents ++
           [CVideo (name (VIDEO T)) video_url video_thumb_url video_duration])
  end.

Fixpoint voice_loop (voices : list Tag) (contents : list Content)
  : result (list Content) :=
  match voices with
  | [] => ret contents
  | voice :: rest =>
      voice_url <- resultset_getitem (select (selector (VOICE_URL T)) voice) "src" ;;
      voice_duration <- resultset_text (select (selector (VOICE_DURATION T)) voice) ;;
      voice_loop rest
        (contents ++ [CVoice (name (VOICE T)) voice_url voice_duration])
  end.

Fixpoint document_loop (documents : list Tag) (contents : list Content)
  : result (list Content) :=
  match documents with
  | [] => ret contents
  | document :: rest =>
      document_url <- getitem (Some document) "href" ;;
      let document_title := select (selector (DOCUMENT_TITLE T)) document in
      let document_size := select (selector (DOCUMENT_SIZE T)) document in
      document_loop rest
        (contents ++
           [CDocument (name (DOCUMENT T)) document_url document_title document_size])
  end.

Definition osm_url (latitude longitude zoom : string) : string :=
  "https://www.openstreetmap.org/"
    ++ ("?lat=" ++ latitude ++ "&lon=" ++ longitude ++ "&zoom=" ++ zoom
          ++ "&layers=M").

Definition location_item (location : Tag) : result Content :=
  url <- getitem (Some location) "href" ;;
  let query := parse_qs (urlparse_query url) in
  qs <- dict_get query "q" ;;
  q <- index qs 0 ;;
  zs <- dict_get query "z" ;;
  zoom <- index zs 0 ;;
  ll <- unpack2 (split "," q) ;;
  let '(latitude, longitude) := ll in
  ret (CLocation (name (LOCATION T)) (osm_url latitude longitude zoom)
         latitude longitude).

Fixpoint location_loop (locations : list Tag) (contents : list Content)
  : result (list Content) :=
  match locations with
  | [] => ret contents
  | location :: rest =>
      item <- location_item location ;;
      location_loop rest (contents ++ [item])
  end.

Fixpoint option_loop (options : list Tag) (poll_options : list PollOption)
  : result (list PollOption) :=
  match options with
  | [] => ret poll_options
  | option :: rest =>
      option_percent <-
        get_text (select_one (selector (POLL_OPTION_PERCENT T)) option) ;;
      option_value <-
        get_text (select_one (selector (POLL_OPTION_VALUE T)) option) ;;
      option_loop rest (poll_options ++ [mkPollOption option_percent option_value])
  end.

Fixpoint poll_loop (polls : list Tag) (contents : list Content)
  : result (list Content) :=
  match polls with
  | [] => ret contents
  | poll :: rest =>
      poll_question <- get_text (select_one (selector (POLL_QUESTION T)) poll) ;;
      poll_type <- get_text (select_one (selector (POLL_TYPE T)) poll) ;;
      poll_options <- option_loop (select (selector (POLL_OPTIONS T)) poll) [] ;;
      poll_loop rest
        (contents ++ [CPoll (name (POLL T)) poll_question poll_type poll_options])
  end.

Fixpoint unsupported_loop (unsupported_medias : list Tag) (contents : list Content)
  : result (list Content) :=
  match unsupported_medias with
  | [] => ret contents
  | media :: rest =>
      match getitem (select_one (selector (UNSUPPORTED_MEDIA_URL T)) media) "href" with
      | inl KeyError => unsupported_loop rest contents
      | inl e => raise e
      | inr url =>
          unsupported_loop rest
            (contents ++ [CUnsupported (name (UNSUPPORTED_MEDIA T)) url])
      end
  end.

(** *** The message loop body as a whole (lines 122-271) *)

Definition decode (bubble : Tag) : result Message :=
  number <- message_number bubble ;;
  author <- message_author bubble ;;
  date <- message_date bubble ;;
  views <- optional_text (selector (MESSAGE_VIEWS T)) bubble ;;
  votes <- optional_text (selector (MESSAGE_VOTERS T)) bubble ;;
  let contents := [] in
  contents <- text_loop (select (selector (TEXT T)) bubble) contents ;;
  contents <- photo_loop (select (selector (PHOTO T)) bubble) contents ;;
  contents <- video_loop (select (selector (VIDEO T)) bubble) contents ;;
  contents <- voice_loop (select (selector (VOICE T)) bubble) contents ;;
  contents <- document_loop (select (selector (DOCUMENT T)) bubble) contents ;;
  contents <- location_loop (select (selector (LOCATION T)) bubble) contents ;;
  contents <- poll_loop (select (selector (POLL T)) bubble) contents ;;
  contents <- unsupported_loop (select (selector (UNSUPPORTED_MEDIA T)) bubble) contents ;;
  ret (mkMessage number author date views votes contents).

Fixpoint message_loop (all_bubbles : list Tag) (all_messages : list Message)
  : result (list Message) :=
  match all_bubbles with
  | [] => ret all_messages
  | bubble :: rest =>
      message <- decode bubble ;;
      message_loop rest (all_messages ++ [message])
  end.

(** *** The page loop (lines 103-117)

    The loop state is [self.position], [all_bubbles] and the requests sent
    so far.  The subscript raises nothing but [TypeError] and [KeyError]
    (lemma [getitem_exn]), so the last handler below is never taken. *)

Fixpoint page_loop (url : string) (pages : nat) (position : option string)
         (all_bubbles : list Tag) (sent : list Request)
  : option string * list Tag * list Request :=
  match pages with
  | O => (position, all_bubbles, sent)
  | S pages' =>
      let soup := session_get url position in
      let sent := (sent ++ [(url, position)])%list in
      match getitem (select_one ".tme_messages_more" soup) "data-before" with
      | inl KeyError => (Some "0", all_bubbles, sent)
      | inl TypeError =>
          let bubbles := select ".tgme_widget_message_bubble" soup in
          page_loop url pages' (Some "0") (all_bubbles ++ rev bubbles) sent
      | inl _ => (position, all_bubbles, sent)
      | inr before =>
          let bubbles := select ".tgme_widget_message_bubble" soup in
          page_loop url pages' (Some before) (all_bubbles ++ rev bubbles) sent
      end
  end.

(** *** [fetch_to_python] (lines 87-272)

    The outcome is the session after the call, the requests the call sent,
    and the returned list or the exception raised. *)

Definition fetch_to_python (self : TGChannel) (pages_to_fetch : Z)
  : TGChannel * list Request * result (list Message) :=
  if position_eqb (position self) "0" then (self, [], raise FeedEnd)
  else
    let url := TELEGRAM_URL ++ "/s/" ++ channel_id self in
    match page_loop url (Z.to_nat pages_to_fetch) (position self) [] [] with
    | (position', all_bubbles, sent) =>
        (mkTGChannel (channel_id self) position', sent,
         message_loop all_bubbles [])
    end.

(** Successive calls on one session object: the session left by a call is
    the one the next call starts from. *)
Fixpoint fetch_calls (self : TGChannel) (calls : list Z)
  : TGChannel * list (list Request * result (list Message)) :=
  match calls with
  | [] => (self, [])
  | pages_to_fetch :: calls' =>
      match fetch_to_python self pages_to_fetch with
      | (self', sent, outcome) =>
          let '(self'', outcomes) := fetch_calls self' calls' in
          (self'', (sent, outcome) :: outcomes)
      end
  end.

End Channel.

(** ** A reference instance of the collaborators

    The theorems below hold for every query engine, selector table and
    transport.  The closed examples run the scraper on this instance: a
    query engine for class selectors [".cls"], a selector table, and
    [urllib.parse] restricted to links without escapes. *)

Module Sample.

(** The elements below [t], in document order. *)
Fixpoint descendants (t : Tag) : list Tag :=
  match t with
  | mkTag _ _ cs => flat_map (fun c => c :: descendants c) cs
  end.

Definition has_class (cls : string) (t : Tag) : bool :=
  match dict_get (attrs t) "class" with
  | inr v => existsb (String.eqb cls) (split " " v)
  | inl _ => false
  end.

(** [select] for a selector made of one class name. *)
Definition class_select (css : string) (t : Tag) : list Tag :=
  match css with
  | String "." cls => filter (has_class cls) (descendants t)
  | _ => []
  end.

Definition types : Registry := {|
  TEXT := mkTGType "text" ".tgme_widget_message_text";
  PHOTO := mkTGType "photo" ".tgme_widget_message_photo_wrap";
  VIDEO := mkTGType "video" ".tgme_widget_message_video_player";
  VOICE := mkTGType "voice" ".tgme_widget_message_voice_player";
  DOCUMENT := mkTGType "document" ".tgme_widget_message_document_wrap";
  LOCATION := mkTGType "location" ".tgme_widget_message_location_wrap";
  POLL := mkTGType "poll" ".tgme_widget_message_poll";
  UNSUPPORTED_MEDIA :=
    mkTGType "unsupported_media" ".message_media_not_supported_wrap";
  MESSAGE_AUTHOR := mkTGType "author" ".tgme_widget_message_owner_name";
  MESSAGE_DATE := mkTGType "date" ".time";
  MESSAGE_VIEWS := mkTGType "views" ".tgme_widget_message_views";
  MESSAGE_VOTERS := mkTGType "votes" ".tgme_widget_message_voters";
  MESSAGE_NUMBER := mkTGType "number" ".tgme_widget_message_date";
  VIDEO_DURATION := mkTGType "duration" ".message_video_duration";
  VIDEO_THUMB := mkTGType "thumbnail" ".tgme_widget_message_video_thumb";
  VOICE_URL := mkTGType "url" ".tgme_widget_message_voice";
  VOICE_DURATION := mkTGType "duration" ".tgme_widget_message_voice_duration";
  DOCUMENT_TITLE := mkTGType "title" ".tgme_widget_message_document_title";
  DOCUMENT_SIZE := mkTGType "size" ".tgme_widget_message_document_extra";
  POLL_QUESTION := mkTGType "question" ".tgme_widget_message_poll_question";
  POLL_TYPE := mkTGType "type" ".tgme_widget_message_poll_type";
  POLL_OPTIONS := mkTGType "options" ".tgme_widget_message_poll_option";
  POLL_OPTION_PERCENT :=
    mkTGType "percent" ".tgme_widget_message_poll_option_percent";
  POLL_OPTION_VALUE :=
    mkTGType "value" ".tgme_widget_message_poll_option_text";
  UNSUPPORTED_MEDIA_URL := mkTGType "url" ".message_media_view_in_telegram"
|}.

(** [s.partition(sep)]: the text before the first [sep], and the text
    after it when there is one. *)
Fixpoint partition (sep : ascii) (s : string) : string * option string :=
  match s with
  | EmptyString => (EmptyString, None)
  | String c s' =>
      if Ascii.eqb c sep then (EmptyString, Some s')
      else let '(a, b) := partition sep s' in (String c a, b)
  end.

(** [urlparse(url).query]: what follows the first ["?"], up to the
    fragment. *)
Definition query_of (url : string) : string :=
  match snd (partition "?" (fst (partition "#" url))) with
  | Some q => q
  | None => EmptyString
  end.

Fixpoint dict_append (d : list (string * list string)) (k v : string)
  : list (string * list string) :=
  match d with
  | [] => [(k, [v])]
  | (k', vs) :: d' =>
      if String.eqb k' k then (k', vs ++ [v])%list :: d'
      else (k', vs) :: dict_append d' k v
  end.

(** [parse_qs(qs)]: the fields are separated by ["&"], a field without
    ["="] or with a blank value is left out, and the values of one name
    are collected in order. *)
Definition fields_of (qs : string) : list (string * list string) :=
  fold_left
    (fun d name_value =>
       match partition "=" name_value with
       | (_, None) => d
       | (_, Some EmptyString) => d
       | (n, Some v) => dict_append d n v
       end)
    (split "&" qs) [].

(** A transport that serves the pages of a table keyed by the ["before"]
    parameter, and an empty document for any other request. *)
Fixpoint lookup_page (pages : list (option string * Tag)) (before : option string)
  : Tag :=
  match pages with
  | [] => mkTag [] "" []
  | (k, doc) :: pages' =>
      let same :=
        match k, before with
        | None, None => true
        | Some a, Some b => String.eqb a b
        | _, _ => false
        end in
      if same then doc else lookup_page pages' before
  end.

Definition serve (pages : list (option string * Tag)) (url : string)
           (before : option string) : Tag :=
  lookup_page pages before.

(** Builders for sample markup. *)
Definition elem (cls : string) (more : list (string * string)) (txt : string)
           (cs : list Tag) : Tag :=
  mkTag (("class", cls) :: more) txt cs.

Definition meta (n author date : string) : list Tag :=
  [ elem "tgme_widget_message_owner_name" [] author [];
    elem "tgme_widget_message_date" [("href", "https://t.me/chan/" ++ n)] ""
      [ elem "time" [("datetime", date)] "" [] ] ].

Definition bubble (n author date : string) (body : list Tag) : Tag :=
  elem "tgme_widget_message_bubble" [] "" (meta n author date ++ body).

Definition more (before : string) : Tag :=
  elem "tme_messages_more" [("data-before", before)] "" [].

Definition env (pages : list (option string * Tag)) : Env := {|
  select := class_select;
  T := types;
  urlparse_query := query_of;
  parse_qs := fields_of;
  session_get := serve pages
|}.

End Sample.

(** ** Notions used in the statements *)

(** The element [t] carries the attribute [key]. *)
Definition has_attr (t : Tag) (key : string) : Prop :=
  exists v, In (key, v) (attrs t).

(** The place of a content item in the fixed order of the extraction
    loops. *)
Definition kind_rank (c : Content) : nat :=
  match c with
  | CText _ _ => 0
  | CPhoto _ _ => 1
  | CVideo _ _ _ _ => 2
  | CVoice _ _ _ => 3
  | CDocument _ _ _ _ => 4
  | CLocation _ _ _ _ => 5
  | CPoll _ _ _ _ => 6
  | CUnsupported _ _ => 7
  end.

(** The kinds of a content list never go down. *)
Definition ascending (l : list Content) : Prop :=
  forall i j ci cj,
    i < j ->
    nth_error l i = Some ci ->
    nth_error l j = Some cj ->
    kind_rank ci <= kind_rank cj.

(** A list fit to follow a block of kind [k]. *)
Definition follows (k : nat) (l : list Content) : Prop :=
  ascending l /\ Forall (fun c => k <= kind_rank c) l.

(** Chronological order of a message list, read off the [date] fields
    (ISO-8601 stamps of one time zone compare as strings). *)
Definition oldest_to_newest (messages : list Message) : Prop :=
  forall i j a b,
    i < j ->
    nth_error messages i = Some a ->
    nth_error messages j = Some b ->
    String.leb (date a) (date b) = true.

Section Pages.

Context {env : Env}.

(** The bubbles of a page as the page loop collects them. *)
Definition page_bubbles (soup : Tag) : list Tag :=
  rev (select ".tgme_widget_message_bubble" soup).

(** A page is collected unless reading its cursor ends the loop by
    [break]. *)
Definition collected (soup : Tag) : bool :=
  match getitem (select_one ".tme_messages_more" soup) "data-before" with
  | inl KeyError => false
  | _ => true
  end.

(** The documents a list of requests was answered with. *)
Definition responses (sent : list Request) : list Tag :=
  map (fun r => session_get (fst r) (snd r)) sent.

(** The bubbles a call hands to its message loop: none when the call stops
    at the test of the cursor, else those gathered by the page loop. *)
Definition collected_bubbles (self : TGChannel) (pages_to_fetch : Z) : list Tag :=
  if position_eqb (position self) "0" then []
  else
    snd (fst (page_loop (TELEGRAM_URL ++ "/s/" ++ channel_id self)
                (Z.to_nat pages_to_fetch) (position self) [] [])).

(** A fragment lacks a required identity field: the element of the
    number, of the author or of the date is not found, or the attribute
    read from it is not there. *)
Definition lacks_attr_at (css key : string) (bubble : Tag) : Prop :=
  match select_one css bubble with
  | None => True
  | Some t => ~ has_attr t key
  end.

Definition lacks_required (bubble : Tag) : Prop :=
  lacks_attr_at (selector (MESSAGE_NUMBER T)) "href" bubble
  \/ select_one (selector (MESSAGE_AUTHOR T)) bubble = None
  \/ lacks_attr_at (selector (MESSAGE_DATE T)) "datetime" bubble.

End Pages.

(** ** More of the class, and notions for further statements *)

(** [TGChannel.__init__] (lines 67-85): the cursor of a new session is
    unset; the session object handed in, or the default one, is the
    transport of [Env]. *)
Definition init (channel_id : string) : TGChannel :=
  mkTGChannel channel_id None.

(** The character [c] occurs in [s]. *)
Fixpoint has_char (c : ascii) (s : string) : bool :=
  match s with
  | EmptyString => false
  | String c' s' => Ascii.eqb c' c || has_char c s'
  end.

(** A computation that does not raise [FeedEnd]. *)
Definition no_feed_end {A} (m : result A) : Prop := m <> inl FeedEnd.

Section Cursor.

Context {env : Env}.

(** The address every request of a session goes to (line 99). *)
Definition preview_address (self : TGChannel) : string :=
  TELEGRAM_URL ++ "/s/" ++ channel_id self.

(** The cursor the page loop takes from an answer: the [data-before] of its
    pagination control, and ["0"] when reading it raises. *)
Definition next_cursor (soup : Tag) : string :=
  match getitem (select_one ".tme_messages_more" soup) "data-before" with
  | inr before => before
  | inl _ => "0"
  end.

(** The requests follow one another: each goes to [url], the first with
    the cursor [position], each later one with the cursor of the answer to
    the one before. *)
Fixpoint chained (url : string) (position : option string) (sent : list Request)
  : Prop :=
  match sent with
  | [] => True
  | r :: rest =>
      r = (url, position)
      /\ chained url (Some (next_cursor (session_get url position))) rest
  end.

(** The cursor left by the answers to a list of requests. *)
Fixpoint cursor_after (position : option string) (sent : list Request)
  : option string :=
  match sent with
  | [] => position
  | r :: rest =>
      cursor_after (Some (next_cursor (session_get (fst r) (snd r)))) rest
  end.

(** What the loops make of one well-formed node. *)
Definition text_item (t : Tag) : Content :=
  CText (name (TEXT T)) (text t).

Definition document_item (document : Tag) (url : string) : Content :=
  CDocument (name (DOCUMENT T)) url
    (select (selector (DOCUMENT_TITLE T)) document)
    (select (selector (DOCUMENT_SIZE T)) document).

(** The items of an unsupported-media node: one when its link carries
    [href], none otherwise. *)
Definition unsupported_items (media : Tag) : list Content :=
  match getitem (select_one (selector (UNSUPPORTED_MEDIA_URL T)) media) "href" with
  | inr url => [CUnsupported (name (UNSUPPORTED_MEDIA T)) url]
  | inl _ => []
  end.

(** A poll option block and the entry made of it. *)
Definition option_read (option : Tag) (entry : PollOption) : Prop :=
  get_text (select_one (selector (POLL_OPTION_PERCENT T)) option)
  = inr (percent entry)
  /\ get_text (select_one (selector (POLL_OPTION_VALUE T)) option)
     = inr (value entry).

End Cursor.

(** ** Sample documents *)

Module Scenario.

Import Sample.

Definition fresh : TGChannel := mkTGChannel "chan" None.
Definition exhausted : TGChannel := mkTGChannel "chan" (Some "0").

Definition text_node (s : string) : Tag :=
  elem "tgme_widget_message_text" [] s [].

Definition page (nodes : list Tag) : Tag := mkTag [] "" nodes.

(** The message expected from [bubble n "Ann" date body]. *)
Definition message (n date : string) (contents : list Content) : Message :=
  mkMessage n "Ann" date None None contents.

Definition preview_url : string := "https://t.me/s/chan".

(** Three pages of a channel: the latest one, the one before message 5
    (it has no pagination control), and what the server answers to
    [before=0]. *)
Definition latest_page : Tag :=
  page [ more "5";
         bubble "5" "Ann" "2024-01-05T10:00:00+00:00" [text_node "five"];
         bubble "6" "Ann" "2024-01-06T10:00:00+00:00" [text_node "six"] ].

Definition first_page : Tag :=
  page [ bubble "3" "Ann" "2024-01-03T10:00:00+00:00" [text_node "three"];
         bubble "4" "Ann" "2024-01-04T10:00:00+00:00" [text_node "four"] ].

Definition zero_page : Tag :=
  page [ bubble "6" "Ann" "2024-01-06T10:00:00+00:00" [text_node "six"] ].

Definition channel_pages : list (option string * Tag) :=
  [ (None, latest_page); (Some "5", first_page); (Some "0", zero_page) ].

(** Two pages of one message each, the second reached through the cursor
    of the first. *)
Definition newer_page : Tag :=
  page [ more "2";
         bubble "2" "Ann" "2024-01-02T10:00:00+00:00" [text_node "second"] ].

Definition older_page : Tag :=
  page [ more "1";
         bubble "1" "Ann" "2024-01-01T10:00:00+00:00" [text_node "first"] ].

Definition two_pages : list (option string * Tag) :=
  [ (None, newer_page); (Some "2", older_page) ].

(** A bubble without the author element, next to a complete one. *)
Definition anonymous_bubble : Tag :=
  elem "tgme_widget_message_bubble" [] ""
    [ elem "tgme_widget_message_date" [("href", "https://t.me/chan/8")] ""
        [ elem "time" [("datetime", "2024-01-08T10:00:00+00:00")] "" [] ];
      text_node "nobody" ].

Definition anonymous_page : Tag :=
  page [ more "7";
         bubble "7" "Ann" "2024-01-07T10:00:00+00:00" [text_node "seven"];
         anonymous_bubble ].

(** A bubble with two photo nodes, the first one without [style]. *)
Definition photo_node (more : list (string * string)) : Tag :=
  elem "tgme_widget_message_photo_wrap" more "" [].

Definition styled_photo : Tag :=
  photo_node [("style", "background-image:url('http://x/y.jpg')")].

Definition photo_bubble : Tag :=
  bubble "9" "Ann" "2024-01-09T10:00:00+00:00" [photo_node []; styled_photo].

Definition photo_page : Tag := page [more "8"; photo_bubble].

(** A bubble with one voice message: the audio source and its duration. *)
Definition voice_node : Tag :=
  elem "tgme_widget_message_voice_player" [] ""
    [ elem "tgme_widget_message_voice" [("src", "http://x/v.ogg")] "" [];
      elem "tgme_widget_message_voice_duration" [] "0:07" [] ].

Definition voice_bubble : Tag :=
  bubble "10" "Ann" "2024-01-10T10:00:00+00:00" [voice_node].

Definition voice_page : Tag := page [more "9"; voice_bubble].

(** A location node and an unsupported-media node whose link has no
    [href]. *)
Definition location_node : Tag :=
  elem "tgme_widget_message_location_wrap"
    [("href", "https://maps.google.com/maps?q=40.1,-73.9&z=15")] "" [].

Definition unlinked_media : Tag :=
  elem "message_media_not_supported_wrap" [] ""
    [ elem "message_media_view_in_telegram" [] "VIEW IN TELEGRAM" [] ].

Definition linked_media : Tag :=
  elem "message_media_not_supported_wrap" [] ""
    [ elem "message_media_view_in_telegram" [("href", "https://t.me/chan/11")]
        "VIEW IN TELEGRAM" [] ].

(** A bubble with content of several kinds, laid out in the document in
    an order other than that of the extraction loops. *)
Definition mixed_bubble : Tag :=
  bubble "11" "Ann" "2024-01-11T10:00:00+00:00"
    [ linked_media; location_node; styled_photo; text_node "hello";
      unlinked_media ].

End Scenario.

(** ** More sample documents *)

Module Gallery.

Import Sample Scenario.

(** A photo node whose [style] has no quote. *)
Definition plain_photo : Tag := photo_node [("style", "background-image:none")].

(** Two documents with their titles and sizes, and one without [href]. *)
Definition document_node (url title size : string) : Tag :=
  elem "tgme_widget_message_document_wrap" [("href", url)] ""
    [ elem "tgme_widget_message_document_title" [] title [];
      elem "tgme_widget_message_document_extra" [] size [] ].

Definition report : Tag := document_node "https://t.me/chan/20" "report.pdf" "1.2 MB".
Definition notes : Tag := document_node "https://t.me/chan/21" "notes.txt" "3 KB".

Definition loose_document : Tag :=
  elem "tgme_widget_message_document_wrap" [] "" [].

(** An unsupported-media node without link element. *)
Definition bare_media : Tag :=
  elem "message_media_not_supported_wrap" [] "" [].

Definition bare_page : Tag :=
  page [ more "12";
         bubble "13" "Ann" "2024-01-13T10:00:00+00:00" [bare_media] ].

(** Location nodes whose links lack [z], or carry a [q] without comma. *)
Definition location_link (url : string) : Tag :=
  elem "tgme_widget_message_location_wrap" [("href", url)] "" [].

Definition unzoomed_location : Tag :=
  location_link "https://maps.google.com/maps?q=40.1,-73.9".

Definition named_location : Tag :=
  location_link "https://maps.google.com/maps?q=Paris&z=15".

(** A poll with two options. *)
Definition poll_option (share answer : string) : Tag :=
  elem "tgme_widget_message_poll_option" [] ""
    [ elem "tgme_widget_message_poll_option_percent" [] share [];
      elem "tgme_widget_message_poll_option_text" [] answer [] ].

Definition tea_option : Tag := poll_option "60%" "tea".
Definition coffee_option : Tag := poll_option "40%" "coffee".

Definition drink_poll : Tag :=
  elem "tgme_widget_message_poll" [] ""
    [ elem "tgme_widget_message_poll_question" [] "Tea or coffee?" [];
      elem "tgme_widget_message_poll_type" [] "Anonymous poll" [];
      tea_option; coffee_option ].

(** A bubble with views and no voters. *)
Definition viewed_bubble : Tag :=
  bubble "12" "Ann" "2024-01-12T10:00:00+00:00"
    [ elem "tgme_widget_message_views" [] "1.5K" []; text_node "seen" ].

(** A channel of three pages, each answer with its cursor. *)
Definition page_of (n date before : string) : Tag :=
  page [ more before; bubble n "Ann" date [text_node n] ].

Definition long_channel : list (option string * Tag) :=
  [ (None, page_of "30" "2024-01-30T10:00:00+00:00" "30");
    (Some "30", page_of "29" "2024-01-29T10:00:00+00:00" "29");
    (Some "29", page_of "28" "2024-01-28T10:00:00+00:00" "28") ].

(** A channel whose only page has a pagination control without cursor. *)
Definition blunt_page : Tag :=
  page [ elem "tme_messages_more" [] "" [];
         bubble "1" "Ann" "2024-01-01T10:00:00+00:00" [text_node "first"] ].

End Gallery.

(** ** General facts about the error monad and the built-ins *)

Open Scope list_scope.

Lemma bind_inr {A B} (m : result A) (k : A -> result B) (b : B) :
  bind m k = inr b -> exists a, m = inr a /\ k a = inr b.
Proof.
  destruct m as [e | a]; simpl; intros Hb.
  - discriminate.
  - exists a. split; [reflexivity | exact Hb].
Qed.

Lemma bind_raises_l {A B} (m : result A) (k : A -> result B) :
  raises m -> raises (bind m k).
Proof.
  intros [e He]. exists e. rewrite He. reflexivity.
Qed.

Lemma bind_raises_r {A B} (m : result A) (k : A -> result B) :
  (forall a, raises (k a)) -> raises (bind m k).
Proof.
  intros Hk. destruct m as [e | a]; simpl.
  - exists e. reflexivity.
  - apply Hk.
Qed.

Lemma dict_get_exn {V} (d : list (string * V)) (k : string) (e : exn) :
  dict_get d k = inl e -> e = KeyError.
Proof.
  induction d as [| [k' v] d IH]; simpl.
  - intros H. inversion H. reflexivity.
  - destruct (String.eqb k' k); [discriminate | exact IH].
Qed.

Lemma dict_get_absent {V} (d : list (string * V)) (k : string) :
  (forall v, ~ In (k, v) d) -> dict_get d k = inl KeyError.
Proof.
  induction d as [| [k' v] d IH]; simpl; intros Habs.
  - reflexivity.
  - destruct (String.eqb_spec k' k) as [-> | _].
    + exfalso. apply (Habs v). left. reflexivity.
    + apply IH. intros v' Hin. apply (Habs v'). right. exact Hin.
Qed.

Lemma getitem_exn (x : option Tag) (key : string) (e : exn) :
  getitem x key = inl e -> e = TypeError \/ e = KeyError.
Proof.
  destruct x as [t |]; simpl.
  - intros H. right. eapply dict_get_exn. exact H.
  - intros H. inversion H. left. reflexivity.
Qed.

Lemma getitem_no_attr (t : Tag) (key : string) :
  ~ has_attr t key -> getitem (Some t) key = inl KeyError.
Proof.
  intros Hno. simpl. apply dict_get_absent.
  intros v Hin. apply Hno. exists v. exact Hin.
Qed.

(** ** The extraction loops append to the list they are given *)

Section LoopFacts.

Context {env : Env}.

(** Peels the computations at the head of both sides of a loop equation. *)
Ltac peel :=
  repeat match goal with
         | |- bind ?m _ = bind (bind ?m _) _ =>
             destruct m; simpl; [reflexivity |]
         end.

(** Closes the step case once only the recursive calls are left. *)
Ltac close_step IH :=
  match goal with
  | |- _ ?rest (?acc ++ [?item]) = _ =>
      rewrite (IH (acc ++ [item])), (IH [item]);
      match goal with
      | |- bind ?m _ = _ => destruct m; simpl; [reflexivity |]
      end;
      rewrite <- app_assoc; reflexivity
  end.

(** Splits a successful chain of binds into its successful steps. *)
Ltac unbind H :=
  repeat match type of H with
         | bind _ _ = inr _ =>
             let a := fresh "a" in
             let Ha := fresh "Ha" in
             apply bind_inr in H; destruct H as (a & Ha & H)
         end.

Ltac keep_kind IH H Hacc :=
  eapply IH;
  [ exact H
  | apply Forall_app; split; [exact Hacc | repeat constructor] ].

Lemma text_loop_app texts contents :
  text_loop texts contents
  = (items <- text_loop texts [] ;; ret (contents ++ items)).
Proof.
  revert contents.
  induction texts as [| t rest IH]; intros contents; simpl.
  - rewrite app_nil_r. reflexivity.
  - close_step IH.
Qed.

Lemma photo_loop_app photos contents :
  photo_loop photos contents
  = (items <- photo_loop photos [] ;; ret (contents ++ items)).
Proof.
  revert contents.
  induction photos as [| p rest IH]; intros contents; simpl.
  - rewrite app_nil_r. reflexivity.
  - peel. close_step IH.
Qed.

Lemma video_loop_app videos contents :
  video_loop videos contents
  = (items <- video_loop videos [] ;; ret (contents ++ items)).
Proof.
  revert contents.
  induction videos as [| v rest IH]; intros contents; simpl.
  - rewrite app_nil_r. reflexivity.
  - peel. close_step IH.
Qed.

Lemma voice_loop_app voices contents :
  voice_loop voices contents
  = (items <- voice_loop voices [] ;; ret (contents ++ items)).
Proof.
  destruct voices as [| v rest]; simpl.
  - rewrite app_nil_r. reflexivity.
  - reflexivity.
Qed.

Lemma document_loop_app documents contents :
  document_loop documents contents
  = (items <- document_loop documents [] ;; ret (contents ++ items)).
Proof.
  revert contents.
  induction documents as [| d rest IH]; intros contents; simpl.
  - rewrite app_nil_r. reflexivity.
  - peel. close_step IH.
Qed.

Lemma location_loop_app locations contents :
  location_loop locations contents
  = (items <- location_loop locations [] ;; ret (contents ++ items)).
Proof.
  revert contents.
  induction locations as [| l rest IH]; intros contents; simpl.
  - rewrite app_nil_r. reflexivity.
  - peel. close_step IH.
Qed.

Lemma poll_loop_app polls contents :
  poll_loop polls contents
  = (items <- poll_loop polls [] ;; ret (contents ++ items)).
Proof.
  revert contents.
  induction polls as [| p rest IH]; intros contents; simpl.
  - rewrite app_nil_r. reflexivity.
  - peel. close_step IH.
Qed.

Lemma unsupported_loop_app medias contents :
  unsupported_loop medias contents
  = (items <- unsupported_loop medias [] ;; ret (contents ++ items)).
Proof.
  revert contents.
  induction medias as [| m rest IH]; intros contents; simpl.
  - rewrite app_nil_r. reflexivity.
  - destruct (getitem (select_one (selector (UNSUPPORTED_MEDIA_URL T)) m) "href")
      as [[] | url]; simpl; try reflexivity.
    + apply IH.
    + close_step IH.
Qed.

(** Each loop adds items of its own kind only. *)

Lemma text_loop_kind texts contents r :
  text_loop texts contents = inr r ->
  Forall (fun c => kind_rank c = 0) contents ->
  Forall (fun c => kind_rank c = 0) r.
Proof.
  revert contents.
  induction texts as [| t rest IH]; intros contents H Hacc; simpl in H.
  - inversion H. subst. exact Hacc.
  - keep_kind IH H Hacc.
Qed.

Lemma photo_loop_kind photos contents r :
  photo_loop photos contents = inr r ->
  Forall (fun c => kind_rank c = 1) contents ->
  Forall (fun c => kind_rank c = 1) r.
Proof.
  revert contents.
  induction photos as [| p rest IH]; intros contents H Hacc; simpl in H.
  - inversion H. subst. exact Hacc.
  - unbind H. keep_kind IH H Hacc.
Qed.

Lemma video_loop_kind videos contents r :
  video_loop videos contents = inr r ->
  Forall (fun c => kind_rank c = 2) contents ->
  Forall (fun c => kind_rank c = 2) r.
Proof.
  revert contents.
  induction videos as [| v rest IH]; intros contents H Hacc; simpl in H.
  - inversion H. subst. exact Hacc.
  - unbind H. keep_kind IH H Hacc.
Qed.

(** A voice loop that returns had no node to visit. *)
Lemma voice_loop_inr voices contents r :
  voice_loop voices contents = inr r -> voices = [] /\ r = contents.
Proof.
  destruct voices as [| v rest]; simpl; intros H.
  - inversion H. split; reflexivity.
  - discriminate.
Qed.

Lemma document_loop_kind documents contents r :
  document_loop documents contents = inr r ->
  Forall (fun c => kind_rank c = 4) contents ->
  Forall (fun c => kind_rank c = 4) r.
Proof.
  revert contents.
  induction documents as [| d rest IH]; intros contents H Hacc; simpl in H.
  - inversion H. subst. exact Hacc.
  - unbind H. keep_kind IH H Hacc.
Qed.

Lemma location_item_kind location item :
  location_item location = inr item -> kind_rank item = 5.
Proof.
  unfold location_item. intros H.
  apply bind_inr in H. destruct H as (url & _ & H).
  apply bind_inr in H. destruct H as (qs & _ & H).
  apply bind_inr in H. destruct H as (q & _ & H).
  apply bind_inr in H. destruct H as (zs & _ & H).
  apply bind_inr in H. destruct H as (zoom & _ & H).
  apply bind_inr in H. destruct H as ([latitude longitude] & _ & H).
  inversion H. reflexivity.
Qed.

Lemma location_loop_kind locations contents r :
  location_loop locations contents = inr r ->
  Forall (fun c => kind_rank c = 5) contents ->
  Forall (fun c => kind_rank c = 5) r.
Proof.
  revert contents.
  induction locations as [| l rest IH]; intros contents H Hacc; simpl in H.
  - inversion H. subst. exact Hacc.
  - unbind H. eapply IH; [exact H |].
    apply Forall_app. split; [exact Hacc |].
    constructor; [| constructor].
    eapply location_item_kind. eassumption.
Qed.

Lemma poll_loop_kind polls contents r :
  poll_loop polls contents = inr r ->
  Forall (fun c => kind_rank c = 6) contents ->
  Forall (fun c => kind_rank c = 6) r.
Proof.
  revert contents.
  induction polls as [| p rest IH]; intros contents H Hacc; simpl in H.
  - inversion H. subst. exact Hacc.
  - unbind H. keep_kind IH H Hacc.
Qed.

Lemma unsupported_loop_kind medias contents r :
  unsupported_loop medias contents = inr r ->
  Forall (fun c => kind_rank c = 7) contents ->
  Forall (fun c => kind_rank c = 7) r.
Proof.
  revert contents.
  induction medias as [| m rest IH]; intros contents H Hacc; simpl in H.
  - inversion H. subst. exact Hacc.
  - destruct (getitem (select_one (selector (UNSUPPORTED_MEDIA_URL T)) m) "href")
      as [[] | url]; try discriminate.
    + eapply IH; eassumption.
    + keep_kind IH H Hacc.
Qed.

End LoopFacts.

(** ** Lists whose kinds never go down *)

Lemma follows_nil (k : nat) : follows k [].
Proof.
  split.
  - intros i j ci cj _ Hi _. destruct i; discriminate.
  - constructor.
Qed.

Lemma follows_app (k k' : nat) (l1 l2 : list Content) :
  k <= k' ->
  Forall (fun c => kind_rank c = k) l1 ->
  follows k' l2 ->
  follows k (l1 ++ l2).
Proof.
  intros Hk H1 [Hasc H2].
  rewrite Forall_forall in H1, H2.
  split.
  - intros i j ci cj Hij Hi Hj.
    destruct (Nat.lt_ge_cases j (length l1)) as [Hj1 | Hj2].
    + rewrite nth_error_app1 in Hi by lia.
      rewrite nth_error_app1 in Hj by lia.
      apply nth_error_In in Hi, Hj.
      rewrite (H1 _ Hi), (H1 _ Hj). lia.
    + rewrite nth_error_app2 in Hj by lia.
      destruct (Nat.lt_ge_cases i (length l1)) as [Hi1 | Hi2].
      * rewrite nth_error_app1 in Hi by lia.
        apply nth_error_In in Hi, Hj.
        rewrite (H1 _ Hi). specialize (H2 _ Hj). simpl in H2. lia.
      * rewrite nth_error_app2 in Hi by lia.
        apply (Hasc (i - length l1) (j - length l1)); [lia | exact Hi | exact Hj].
  - apply Forall_forall. intros c Hc.
    apply in_app_or in Hc. destruct Hc as [Hc | Hc].
    + rewrite (H1 _ Hc). lia.
    + specialize (H2 _ Hc). simpl in H2. lia.
Qed.

(** ** The message loop *)

Section MessageFacts.

Context {env : Env}.

Lemma message_loop_app bubbles all_messages :
  message_loop bubbles all_messages
  = (messages <- message_loop bubbles [] ;; ret (all_messages ++ messages)).
Proof.
  revert all_messages.
  induction bubbles as [| b rest IH]; intros all_messages; simpl.
  - rewrite app_nil_r. reflexivity.
  - destruct (decode b) as [e | m]; simpl; [reflexivity |].
    rewrite (IH (all_messages ++ [m])), (IH [m]).
    destruct (message_loop rest []); simpl; [reflexivity |].
    rewrite <- app_assoc. reflexivity.
Qed.

(** A returned list holds the decoded bubbles, one by one and in order. *)
Lemma message_loop_inr bubbles messages :
  message_loop bubbles [] = inr messages ->
  Forall2 (fun b m => decode b = inr m) bubbles messages.
Proof.
  revert messages.
  induction bubbles as [| b rest IH]; intros messages H; simpl in H.
  - inversion H. constructor.
  - destruct (decode b) as [e | m] eqn:Hb; simpl in H; [discriminate |].
    rewrite message_loop_app in H.
    destruct (message_loop rest []) as [e | ms] eqn:Hrest; simpl in H;
      [discriminate |].
    inversion H. subst. constructor; [exact Hb | apply IH; reflexivity].
Qed.

(** One bubble that cannot be decoded makes the whole loop raise. *)
Lemma message_loop_raises before bubble after all_messages :
  raises (decode bubble) ->
  raises (message_loop (before ++ bubble :: after) all_messages).
Proof.
  intros [e He]. revert all_messages.
  induction before as [| b rest IH]; intros all_messages; simpl.
  - rewrite He. exists e. reflexivity.
  - apply bind_raises_r. intros m. apply IH.
Qed.

Lemma Forall2_split {A B} (P : A -> B -> Prop) (l1 l2 : list A) (l : list B) :
  Forall2 P (l1 ++ l2) l ->
  exists m1 m2, l = m1 ++ m2 /\ Forall2 P l1 m1 /\ Forall2 P l2 m2.
Proof.
  revert l. induction l1 as [| a l1 IH]; intros l H; simpl in H.
  - exists [], l. repeat split; [constructor | exact H].
  - inversion H as [| a' b l' m' Hab Hrest]; subst.
    destruct (IH _ Hrest) as (m1 & m2 & -> & H1 & H2).
    exists (b :: m1), m2. repeat split; [constructor; assumption | exact H2].
Qed.

End MessageFacts.

(** ** Splitting strings *)

Lemma split_whole (sep : ascii) (s : string) :
  has_char sep s = false -> split sep s = [s].
Proof.
  induction s as [| c s IH]; simpl; intros Hno.
  - reflexivity.
  - apply orb_false_elim in Hno. destruct Hno as [Hc Hs].
    rewrite Hc, (IH Hs). reflexivity.
Qed.

Lemma split_at_first (sep : ascii) (a b : string) :
  has_char sep a = false ->
  split sep (a ++ String sep b) = a :: split sep b.
Proof.
  induction a as [| c a IH]; simpl; intros Hno.
  - rewrite Ascii.eqb_refl. reflexivity.
  - apply orb_false_elim in Hno. destruct Hno as [Hc Ha].
    rewrite Hc, (IH Ha). reflexivity.
Qed.

Lemma dict_get_present {V} (d : list (string * V)) (k : string) (v : V) :
  In (k, v) d -> exists v', dict_get d k = inr v'.
Proof.
  induction d as [| [k' w] d IH]; simpl; intros Hin.
  - contradiction.
  - destruct (String.eqb_spec k' k) as [-> | Hneq].
    + exists w. reflexivity.
    + destruct Hin as [Heq | Hin]; [| exact (IH Hin)].
      inversion Heq; subst. contradiction.
Qed.

Lemma getitem_attr (t : Tag) (key : string) :
  has_attr t key -> exists v, getitem (Some t) key = inr v.
Proof.
  intros [v Hin]. simpl. eapply dict_get_present. exact Hin.
Qed.

(** ** No loop raises [FeedEnd] *)

Create HintDb feed_end.

Lemma no_feed_end_ret {A} (a : A) : no_feed_end (ret a).
Proof. discriminate. Qed.

Lemma no_feed_end_bind {A B} (m : result A) (k : A -> result B) :
  no_feed_end m -> (forall a, no_feed_end (k a)) -> no_feed_end (bind m k).
Proof.
  intros Hm Hk. destruct m as [e | a]; simpl.
  - intros H. apply Hm. inversion H. reflexivity.
  - apply Hk.
Qed.

Lemma no_feed_end_dict_get {V} (d : list (string * V)) (k : string) :
  no_feed_end (dict_get d k).
Proof.
  intros H. apply dict_get_exn in H. discriminate.
Qed.

Lemma no_feed_end_getitem (x : option Tag) (key : string) :
  no_feed_end (getitem x key).
Proof.
  intros H. apply getitem_exn in H. destruct H; discriminate.
Qed.

Lemma no_feed_end_get_text (x : option Tag) : no_feed_end (get_text x).
Proof. destruct x; discriminate. Qed.

Lemma no_feed_end_index {A} (l : list A) (i : nat) : no_feed_end (index l i).
Proof. unfold index. destruct (nth_error l i); discriminate. Qed.

Lemma no_feed_end_unpack2 {A} (l : list A) : no_feed_end (unpack2 l).
Proof. destruct l as [| a [| b [| c l]]]; discriminate. Qed.

Lemma no_feed_end_try_except {A} (m h : result A) (e : exn) :
  no_feed_end m -> no_feed_end h -> no_feed_end (try_except m e h).
Proof.
  intros Hm Hh. destruct m as [e' | a]; simpl.
  - destruct (exn_eqb e' e); [exact Hh |].
    intros H. apply Hm. inversion H. reflexivity.
  - discriminate.
Qed.

#[local] Hint Resolve no_feed_end_ret no_feed_end_dict_get no_feed_end_getitem
  no_feed_end_get_text no_feed_end_index no_feed_end_unpack2 : feed_end.

Section NoFeedEnd.

Context {env : Env}.

(** Runs through a chain of binds whose steps are built-ins. *)
Ltac through_binds :=
  repeat (apply no_feed_end_bind; [solve [auto with feed_end] | intro]).

Lemma no_feed_end_text_loop texts contents :
  no_feed_end (text_loop texts contents).
Proof.
  revert contents. induction texts as [| t rest IH]; intros contents; simpl.
  - discriminate.
  - apply IH.
Qed.

Lemma no_feed_end_photo_loop photos contents :
  no_feed_end (photo_loop photos contents).
Proof.
  revert contents. induction photos as [| p rest IH]; intros contents;
    cbn [photo_loop].
  - discriminate.
  - unfold style_url. through_binds. apply IH.
Qed.

Lemma no_feed_end_video_loop videos contents :
  no_feed_end (video_loop videos contents).
Proof.
  revert contents. induction videos as [| v rest IH]; intros contents;
    cbn [video_loop].
  - discriminate.
  - unfold style_url. through_binds. apply IH.
Qed.

Lemma no_feed_end_voice_loop voices contents :
  no_feed_end (voice_loop voices contents).
Proof.
  destruct voices; discriminate.
Qed.

Lemma no_feed_end_document_loop documents contents :
  no_feed_end (document_loop documents contents).
Proof.
  revert contents. induction documents as [| d rest IH]; intros contents;
    cbn [document_loop].
  - discriminate.
  - through_binds. apply IH.
Qed.

Lemma no_feed_end_location_item location :
  no_feed_end (location_item location).
Proof.
  unfold location_item. through_binds.
  match goal with ll : (string * string)%type |- _ => destruct ll end.
  discriminate.
Qed.

Lemma no_feed_end_location_loop locations contents :
  no_feed_end (location_loop locations contents).
Proof.
  revert contents. induction locations as [| l rest IH]; intros contents;
    cbn [location_loop].
  - discriminate.
  - apply no_feed_end_bind; [apply no_feed_end_location_item | intro].
    apply IH.
Qed.

Lemma no_feed_end_option_loop options poll_options :
  no_feed_end (option_loop options poll_options).
Proof.
  revert poll_options. induction options as [| o rest IH]; intros poll_options;
    cbn [option_loop].
  - discriminate.
  - through_binds. apply IH.
Qed.

Lemma no_feed_end_poll_loop polls contents :
  no_feed_end (poll_loop polls contents).
Proof.
  revert contents. induction polls as [| p rest IH]; intros contents;
    cbn [poll_loop].
  - discriminate.
  - through_binds.
    apply no_feed_end_bind; [apply no_feed_end_option_loop | intro].
    apply IH.
Qed.

Lemma no_feed_end_unsupported_loop medias contents :
  no_feed_end (unsupported_loop medias contents).
Proof.
  revert contents. induction medias as [| m rest IH]; intros contents;
    cbn [unsupported_loop].
  - discriminate.
  - destruct (getitem (select_one (selector (UNSUPPORTED_MEDIA_URL T)) m) "href")
      as [e | url] eqn:Hlink.
    + destruct (getitem_exn _ _ _ Hlink) as [-> | ->];
        [discriminate | apply IH].
    + apply IH.
Qed.

Lemma no_feed_end_optional_text css bubble :
  no_feed_end (optional_text css bubble).
Proof.
  unfold optional_text. apply no_feed_end_try_except; [| discriminate].
  through_binds. discriminate.
Qed.

Lemma no_feed_end_decode bubble : no_feed_end (decode bubble).
Proof.
  unfold decode, message_number, message_author, message_date.
  apply no_feed_end_bind; [through_binds; auto with feed_end | intro].
  apply no_feed_end_bind; [auto with feed_end | intro].
  apply no_feed_end_bind; [auto with feed_end | intro].
  apply no_feed_end_bind; [apply no_feed_end_optional_text | intro].
  apply no_feed_end_bind; [apply no_feed_end_optional_text | intro].
  apply no_feed_end_bind; [apply no_feed_end_text_loop | intro].
  apply no_feed_end_bind; [apply no_feed_end_photo_loop | intro].
  apply no_feed_end_bind; [apply no_feed_end_video_loop | intro].
  apply no_feed_end_bind; [apply no_feed_end_voice_loop | intro].
  apply no_feed_end_bind; [apply no_feed_end_document_loop | intro].
  apply no_feed_end_bind; [apply no_feed_end_location_loop | intro].
  apply no_feed_end_bind; [apply no_feed_end_poll_loop | intro].
  apply no_feed_end_bind; [apply no_feed_end_unsupported_loop | intro].
  discriminate.
Qed.

Lemma no_feed_end_message_loop bubbles all_messages :
  no_feed_end (message_loop bubbles all_messages).
Proof.
  revert all_messages. induction bubbles as [| b rest IH]; intros all_messages;
    cbn [message_loop].
  - discriminate.
  - apply no_feed_end_bind; [apply no_feed_end_decode | intro]. apply IH.
Qed.

Lemma message_loop_cat bubbles1 bubbles2 all_messages :
  message_loop (bubbles1 ++ bubbles2) all_messages
  = (messages <- message_loop bubbles1 all_messages ;;
     message_loop bubbles2 messages).
Proof.
  revert all_messages.
  induction bubbles1 as [| b rest IH]; intros all_messages; simpl.
  - reflexivity.
  - destruct (decode b) as [e | m]; simpl; [reflexivity | apply IH].
Qed.

End NoFeedEnd.

(** ** The page loop *)

Section PageFacts.

Context {env : Env}.

Lemma position_eqb_true (p : option string) (s : string) :
  position_eqb p s = true <-> p = Some s.
Proof.
  destruct p as [p |]; simpl.
  - rewrite String.eqb_eq. split; [intros -> | intros H; inversion H]; reflexivity.
  - split; discriminate.
Qed.

Lemma fetch_exhausted (self : TGChannel) (pages_to_fetch : Z) :
  position self = Some "0" ->
  fetch_to_python self pages_to_fetch = (self, [], inl FeedEnd).
Proof.
  intros Hpos. unfold fetch_to_python.
  rewrite (proj2 (position_eqb_true _ _) Hpos). reflexivity.
Qed.

(** What one run of the page loop adds to its state: the requests it
    sends, and the reversed bubbles of the collected answers, in the order
    of the requests. *)
Lemma page_loop_adds url pages position all_bubbles sent :
  exists new,
    length new <= pages
    /\ snd (page_loop url pages position all_bubbles sent) = sent ++ new
    /\ snd (fst (page_loop url pages position all_bubbles sent))
       = all_bubbles ++ flat_map page_bubbles (filter collected (responses new)).
Proof.
  revert position all_bubbles sent.
  induction pages as [| pages IH]; intros position all_bubbles sent.
  - exists []. simpl. rewrite !app_nil_r. repeat split. lia.
  - simpl.
    destruct (getitem (select_one ".tme_messages_more" (session_get url position))
                "data-before") as [e | before] eqn:Hcursor.
    + destruct (getitem_exn _ _ _ Hcursor) as [-> | ->].
      * destruct (IH (Some "0")
                    (all_bubbles ++ rev (select ".tgme_widget_message_bubble"
                                           (session_get url position)))
                    (sent ++ [(url, position)])) as (new & Hlen & Hsent & Hbub).
        exists ((url, position) :: new). simpl.
        unfold collected at 1. rewrite Hcursor. simpl.
        rewrite Hsent, Hbub, <- !app_assoc. repeat split. lia.
      * exists [(url, position)]. simpl.
        unfold collected. simpl. rewrite Hcursor. simpl.
        rewrite app_nil_r. repeat split. lia.
    + destruct (IH (Some before)
                  (all_bubbles ++ rev (select ".tgme_widget_message_bubble"
                                         (session_get url position)))
                  (sent ++ [(url, position)])) as (new & Hlen & Hsent & Hbub).
      exists ((url, position) :: new). simpl.
      unfold collected at 1. rewrite Hcursor. simpl.
      rewrite Hsent, Hbub, <- !app_assoc. repeat split. lia.
Qed.

(** A page without pagination control sets the cursor to ["0"], is
    collected, and the loop goes on to the next request. *)
Lemma page_loop_without_control url pages position all_bubbles sent :
  select_one ".tme_messages_more" (session_get url position) = None ->
  page_loop url (S pages) position all_bubbles sent
  = page_loop url pages (Some "0")
      (all_bubbles ++ page_bubbles (session_get url position))
      (sent ++ [(url, position)]).
Proof.
  intros Hnone. simpl. rewrite Hnone. reflexivity.
Qed.

(** A pagination control without cursor sets the cursor to ["0"] and ends
    the loop before the bubbles of its page are collected. *)
Lemma page_loop_without_cursor url pages position all_bubbles sent control :
  select_one ".tme_messages_more" (session_get url position) = Some control ->
  ~ has_attr control "data-before" ->
  page_loop url (S pages) position all_bubbles sent
  = (Some "0", all_bubbles, sent ++ [(url, position)]).
Proof.
  intros Hsome Hno. simpl. rewrite Hsome.
  rewrite (getitem_no_attr _ _ Hno). reflexivity.
Qed.

Lemma Forall2_flat_map {A B C} (P : B -> C -> Prop) (f : A -> list B)
      (l : list A) (out : list C) :
  Forall2 P (flat_map f l) out ->
  exists parts,
    Forall2 (fun a part => Forall2 P (f a) part) l parts
    /\ out = concat parts.
Proof.
  revert out. induction l as [| a l IH]; intros out H; simpl in H.
  - inversion H. exists []. split; [constructor | reflexivity].
  - apply Forall2_split in H. destruct H as (m1 & m2 & -> & H1 & H2).
    destruct (IH _ H2) as (parts & Hparts & ->).
    exists (m1 :: parts). split; [constructor; assumption | reflexivity].
Qed.

End PageFacts.

(** ** The claims about [fetch_to_python] *)

Section Pager.

Context {env : Env}.

(** C1.  On a session whose cursor is the end sentinel ["0"], every call
    of [fetch_to_python], whatever the number of pages asked for and
    however many calls came before, raises [FeedEnd], sends no request,
    returns no message and leaves the session as it was. *)
Theorem C1_exhausted_is_sticky (self : TGChannel) (calls : list Z) :
  position self = Some "0" ->
  fetch_calls self calls = (self, map (fun _ => ([], inl FeedEnd)) calls).
Proof.
  intros Hpos. induction calls as [| pages_to_fetch calls IH]; simpl.
  - reflexivity.
  - rewrite (fetch_exhausted self pages_to_fetch Hpos), IH. reflexivity.
Qed.

(** C10.  On a session whose cursor is not ["0"], asking for zero pages
    returns the empty list, sends no request and leaves the session, its
    cursor included, unchanged. *)
Theorem C10_zero_pages (self : TGChannel) :
  position self <> Some "0" ->
  fetch_to_python self 0 = (self, [], inr []).
Proof.
  intros Hpos. unfold fetch_to_python.
  destruct (position_eqb (position self) "0") eqn:Heq.
  - exfalso. apply Hpos. apply position_eqb_true. exact Heq.
  - simpl. destruct self as [id pos]. reflexivity.
Qed.

(** C4, as amended.  When a call returns, the returned list is made of
    one block per collected page, the blocks in the order the pages were
    requested, and the block of a page holds the decoded bubbles of that
    page in the reverse of their order in the document. *)
Theorem C4_pages_reversed_then_concatenated
        (self self' : TGChannel) (pages_to_fetch : Z)
        (sent : list Request) (messages : list Message) :
  fetch_to_python self pages_to_fetch = (self', sent, inr messages) ->
  exists blocks : list (list Message),
    Forall2
      (fun soup block =>
         Forall2 (fun bubble message => decode bubble = inr message)
           (rev (select ".tgme_widget_message_bubble" soup)) block)
      (filter collected (responses sent)) blocks
    /\ messages = concat blocks.
Proof.
  unfold fetch_to_python.
  destruct (position_eqb (position self) "0"); [discriminate |].
  set (url := (TELEGRAM_URL ++ "/s/" ++ channel_id self)%string).
  destruct (page_loop_adds url (Z.to_nat pages_to_fetch) (position self) [] [])
    as (new & _ & Hsent & Hbubbles).
  destruct (page_loop url (Z.to_nat pages_to_fetch) (position self) [] [])
    as [[position' all_bubbles] sent'].
  simpl in Hsent, Hbubbles. subst sent' all_bubbles.
  intros H. inversion H; subst.
  apply Forall2_flat_map.
  apply message_loop_inr. assumption.
Qed.

End Pager.

Section Decoder.

Context {env : Env}.

Lemma lacks_attr_raises css key bubble :
  lacks_attr_at css key bubble ->
  raises (getitem (select_one css bubble) key).
Proof.
  unfold lacks_attr_at. destruct (select_one css bubble) as [t |].
  - intros Hno. exists KeyError. apply getitem_no_attr. exact Hno.
  - intros _. exists TypeError. reflexivity.
Qed.

Lemma decode_lacking_required bubble :
  lacks_required bubble -> raises (decode bubble).
Proof.
  intros [Hnumber | [Hauthor | Hdate]]; unfold decode.
  - apply bind_raises_l. unfold message_number.
    apply bind_raises_l. apply lacks_attr_raises. exact Hnumber.
  - apply bind_raises_r. intros number.
    apply bind_raises_l. unfold message_author. rewrite Hauthor.
    exists AttributeError. reflexivity.
  - apply bind_raises_r. intros number.
    apply bind_raises_r. intros author.
    apply bind_raises_l. apply lacks_attr_raises. exact Hdate.
Qed.

Lemma message_number_exn bubble e :
  message_number bubble = inl e ->
  e = TypeError \/ e = KeyError \/ e = IndexError.
Proof.
  unfold message_number.
  destruct (getitem (select_one (selector (MESSAGE_NUMBER T)) bubble) "href")
    as [e' | href] eqn:Hhref; cbn [bind].
  - intros H. inversion H; subst e'.
    destruct (getitem_exn _ _ _ Hhref) as [-> | ->]; auto.
  - unfold index. destruct (nth_error (split "/" href) 4); intros H;
      inversion H. auto.
Qed.

(** The exceptions a fragment without a required field is decoded to. *)
Lemma decode_lacking_exn bubble :
  lacks_required bubble ->
  exists e,
    decode bubble = inl e
    /\ (e = TypeError \/ e = KeyError \/ e = AttributeError \/ e = IndexError).
Proof.
  intros Hlacks. unfold decode.
  destruct (message_number bubble) as [e | number] eqn:Hnumber; cbn [bind].
  { exists e. split; [reflexivity |].
    destruct (message_number_exn _ _ Hnumber) as [-> | [-> | ->]]; auto. }
  destruct (message_author bubble) as [e | author] eqn:Hauthor; cbn [bind].
  { exists e. split; [reflexivity |].
    unfold message_author in Hauthor.
    destruct (select_one (selector (MESSAGE_AUTHOR T)) bubble);
      inversion Hauthor. auto. }
  destruct (message_date bubble) as [e | date] eqn:Hdate; cbn [bind].
  { exists e. split; [reflexivity |].
    destruct (getitem_exn _ _ _ Hdate) as [-> | ->]; auto. }
  exfalso. destruct Hlacks as [Hno | [Hno | Hno]].
  - apply lacks_attr_raises in Hno. destruct Hno as [e He].
    unfold message_number in Hnumber. rewrite He in Hnumber. discriminate.
  - unfold message_author in Hauthor. rewrite Hno in Hauthor. discriminate.
  - apply lacks_attr_raises in Hno. destruct Hno as [e He].
    unfold message_date in Hdate. rewrite He in Hdate. discriminate.
Qed.

(** The message loop raises what the first bubble that cannot be decoded
    raises. *)
Lemma message_loop_stops before bubble after all_messages messages e :
  decode bubble = inl e ->
  message_loop before all_messages = inr messages ->
  message_loop (before ++ bubble :: after) all_messages = inl e.
Proof.
  intros He Hbefore.
  rewrite message_loop_cat, Hbefore. cbn [bind message_loop].
  rewrite He. reflexivity.
Qed.

(** A call that handed an undecodable bubble to its message loop raises,
    and not [FeedEnd]. *)
Lemma fetch_raises_on bubble self pages_to_fetch :
  raises (decode bubble) ->
  In bubble (collected_bubbles self pages_to_fetch) ->
  exists e,
    snd (fetch_to_python self pages_to_fetch) = inl e /\ e <> FeedEnd.
Proof.
  intros Hraises Hin.
  unfold fetch_to_python, collected_bubbles in *.
  destruct (position_eqb (position self) "0"); [contradiction |].
  destruct (page_loop _ _ _ _ _) as [[position' all_bubbles] sent].
  simpl in *. apply in_split in Hin. destruct Hin as (before & after & ->).
  destruct (message_loop_raises before bubble after [] Hraises) as [e He].
  exists e. split; [exact He |].
  intros ->. exact (no_feed_end_message_loop _ _ He).
Qed.

(** C3, as amended.  A fragment lacking the element or the attribute of
    its number, its author or its date is decoded to [TypeError],
    [KeyError], [AttributeError] or [IndexError].  Nothing catches the
    exception: the message loop raises it when it reaches the fragment,
    raises whatever else the page holds, and a call of [fetch_to_python]
    that collected the fragment raises an exception other than [FeedEnd]
    instead of returning messages. *)
Theorem C3_missing_metadata_aborts (bubble : Tag) :
  lacks_required bubble ->
  exists e,
    decode bubble = inl e
    /\ (e = TypeError \/ e = KeyError \/ e = AttributeError \/ e = IndexError)
    /\ (forall before after all_messages messages,
           message_loop before all_messages = inr messages ->
           message_loop (before ++ bubble :: after) all_messages = inl e)
    /\ (forall before after all_messages,
           raises (message_loop (before ++ bubble :: after) all_messages))
    /\ (forall self pages_to_fetch,
           In bubble (collected_bubbles self pages_to_fetch) ->
           exists e',
             snd (fetch_to_python self pages_to_fetch) = inl e'
             /\ e' <> FeedEnd).
Proof.
  intros Hlacks.
  destruct (decode_lacking_exn bubble Hlacks) as (e & He & Hkind).
  assert (Hraises : raises (decode bubble)) by (exists e; exact He).
  exists e. repeat split; try assumption.
  - intros before after all_messages messages Hbefore.
    eapply message_loop_stops; eassumption.
  - intros before after all_messages.
    apply message_loop_raises. exact Hraises.
  - intros self pages_to_fetch.
    apply fetch_raises_on. exact Hraises.
Qed.

(** C5.  The contents of a decoded message are the outputs of the eight
    extraction loops, each run on its own, put end to end in the order
    text, photo, video, voice, document, location, poll, unsupported
    media; hence the kind of an item never precedes an earlier kind. *)
Theorem C5_contents_in_fixed_order (bubble : Tag) (message : Message) :
  decode bubble = inr message ->
  exists texts photos videos voices documents locations polls unsupported,
    text_loop (select (selector (TEXT T)) bubble) [] = inr texts
    /\ photo_loop (select (selector (PHOTO T)) bubble) [] = inr photos
    /\ video_loop (select (selector (VIDEO T)) bubble) [] = inr videos
    /\ voice_loop (select (selector (VOICE T)) bubble) [] = inr voices
    /\ document_loop (select (selector (DOCUMENT T)) bubble) [] = inr documents
    /\ location_loop (select (selector (LOCATION T)) bubble) [] = inr locations
    /\ poll_loop (select (selector (POLL T)) bubble) [] = inr polls
    /\ unsupported_loop (select (selector (UNSUPPORTED_MEDIA T)) bubble) []
       = inr unsupported
    /\ contents message
       = texts ++ photos ++ videos ++ voices ++ documents ++ locations
           ++ polls ++ unsupported
    /\ ascending (contents message).
Proof.
  unfold decode. intros H.
  apply bind_inr in H. destruct H as (number & _ & H).
  apply bind_inr in H. destruct H as (author & _ & H).
  apply bind_inr in H. destruct H as (date & _ & H).
  apply bind_inr in H. destruct H as (views & _ & H).
  apply bind_inr in H. destruct H as (votes & _ & H).
  apply bind_inr in H. destruct H as (texts & Htexts & H).
  apply bind_inr in H. destruct H as (c2 & Hphotos & H).
  apply bind_inr in H. destruct H as (c3 & Hvideos & H).
  apply bind_inr in H. destruct H as (c4 & Hvoices & H).
  apply bind_inr in H. destruct H as (c5 & Hdocuments & H).
  apply bind_inr in H. destruct H as (c6 & Hlocations & H).
  apply bind_inr in H. destruct H as (c7 & Hpolls & H).
  apply bind_inr in H. destruct H as (c8 & Hunsupported & H).
  inversion H; subst message; clear H. simpl.
  rewrite photo_loop_app in Hphotos.
  apply bind_inr in Hphotos. destruct Hphotos as (photos & Hphotos & E2).
  rewrite video_loop_app in Hvideos.
  apply bind_inr in Hvideos. destruct Hvideos as (videos & Hvideos & E3).
  rewrite voice_loop_app in Hvoices.
  apply bind_inr in Hvoices. destruct Hvoices as (voices & Hvoices & E4).
  rewrite document_loop_app in Hdocuments.
  apply bind_inr in Hdocuments. destruct Hdocuments as (documents & Hdocuments & E5).
  rewrite location_loop_app in Hlocations.
  apply bind_inr in Hlocations. destruct Hlocations as (locations & Hlocations & E6).
  rewrite poll_loop_app in Hpolls.
  apply bind_inr in Hpolls. destruct Hpolls as (polls & Hpolls & E7).
  rewrite unsupported_loop_app in Hunsupported.
  apply bind_inr in Hunsupported.
  destruct Hunsupported as (unsupported & Hunsupported & E8).
  inversion E2; inversion E3; inversion E4; inversion E5; inversion E6;
    inversion E7; inversion E8; subst; clear E2 E3 E4 E5 E6 E7 E8.
  exists texts, photos, videos, voices, documents, locations, polls, unsupported.
  repeat (split; [assumption |]).
  split; [rewrite <- !app_assoc; reflexivity |].
  rewrite <- !app_assoc.
  destruct (voice_loop_inr _ _ _ Hvoices) as [_ ->].
  assert (Hlast : follows 7 unsupported).
  { rewrite <- (app_nil_r unsupported).
    apply (follows_app 7 7); [lia | | apply follows_nil].
    eapply unsupported_loop_kind; [eassumption | constructor]. }
  refine (proj1 (follows_app 0 1 _ _ _ _ _)); [lia | |].
  { eapply text_loop_kind; [eassumption | constructor]. }
  apply (follows_app 1 2); [lia | |].
  { eapply photo_loop_kind; [eassumption | constructor]. }
  apply (follows_app 2 3); [lia | |].
  { eapply video_loop_kind; [eassumption | constructor]. }
  apply (follows_app 3 4); [lia | constructor |].
  apply (follows_app 4 5); [lia | |].
  { eapply document_loop_kind; [eassumption | constructor]. }
  apply (follows_app 5 6); [lia | |].
  { eapply location_loop_kind; [eassumption | constructor]. }
  apply (follows_app 6 7); [lia | | exact Hlast].
  eapply poll_loop_kind; [eassumption | constructor].
Qed.

End Decoder.

Section Extractors.

Context {env : Env}.

Lemma photo_loop_cat photos1 photos2 contents :
  photo_loop (photos1 ++ photos2) contents
  = (contents' <- photo_loop photos1 contents ;; photo_loop photos2 contents').
Proof.
  revert contents.
  induction photos1 as [| p rest IH]; intros contents; simpl.
  - reflexivity.
  - destruct (dict_get (attrs p) "style") as [e | style]; simpl; [reflexivity |].
    destruct (style_url style) as [e | photo_url]; simpl; [reflexivity |].
    apply IH.
Qed.

Lemma photo_loop_raises photos photo contents :
  In photo photos ->
  ~ has_attr photo "style" ->
  raises (photo_loop photos contents).
Proof.
  intros Hin Hno. apply in_split in Hin. destruct Hin as (before & after & ->).
  rewrite photo_loop_cat. apply bind_raises_r. intros contents'.
  exists KeyError. cbn [photo_loop].
  rewrite (getitem_no_attr _ _ Hno). reflexivity.
Qed.

(** C7, as amended.  A photo node without [style] makes the photo loop
    raise [KeyError] when the loop reaches it; nothing catches the
    exception, so no later photo node is visited, the decoding of the
    message raises, so does the message loop over any list of bubbles
    that holds the message, and a call of [fetch_to_python] that collected
    the message raises an exception other than [FeedEnd] instead of
    returning. *)
Theorem C7_photo_without_style_aborts (bubble photo : Tag) :
  In photo (select (selector (PHOTO T)) bubble) ->
  ~ has_attr photo "style" ->
  (forall before after contents contents',
      photo_loop before contents = inr contents' ->
      photo_loop (before ++ photo :: after) contents = inl KeyError)
  /\ raises (decode bubble)
  /\ (forall before after all_messages,
         raises (message_loop (before ++ bubble :: after) all_messages))
  /\ (forall self pages_to_fetch,
         In bubble (collected_bubbles self pages_to_fetch) ->
         exists e,
           snd (fetch_to_python self pages_to_fetch) = inl e /\ e <> FeedEnd).
Proof.
  intros Hin Hno.
  assert (Hdecode : raises (decode bubble)).
  { unfold decode.
    do 6 (apply bind_raises_r; intro).
    apply bind_raises_l. eapply photo_loop_raises; eassumption. }
  split; [| split; [| split]].
  - intros before after contents contents' Hbefore.
    rewrite photo_loop_cat, Hbefore. cbn [bind photo_loop].
    rewrite (getitem_no_attr _ _ Hno). reflexivity.
  - exact Hdecode.
  - intros before after all_messages.
    apply message_loop_raises. exact Hdecode.
  - intros self pages_to_fetch.
    apply fetch_raises_on. exact Hdecode.
Qed.

(** No voice node gets through the voice loop. *)
Lemma voice_loop_raises voice rest contents :
  voice_loop (voice :: rest) contents = inl TypeError.
Proof.
  reflexivity.
Qed.

Lemma location_loop_keeps locations location item contents r :
  location_item location = inr item ->
  In location locations ->
  location_loop locations contents = inr r ->
  In item r.
Proof.
  intros Hitem Hin. revert contents.
  induction locations as [| l rest IH]; intros contents Hloop.
  - contradiction.
  - cbn [location_loop] in Hloop.
    apply bind_inr in Hloop. destruct Hloop as (item' & Hitem' & Hloop).
    destruct Hin as [-> | Hin].
    + rewrite Hitem in Hitem'. inversion Hitem'; subst item'.
      rewrite location_loop_app in Hloop.
      apply bind_inr in Hloop. destruct Hloop as (items & _ & Hr).
      inversion Hr. apply in_or_app. left.
      apply in_or_app. right. left. reflexivity.
    + exact (IH Hin _ Hloop).
Qed.

(** C6.  For a location node whose link has the query parameters [q],
    of the form [lat,lon], and [z], the location loop adds one item: its
    url is the OpenStreetMap address built from [lat], [lon] and the zoom
    [z], and its latitude and longitude are [lat] and [lon].  The item is in
    the list the loop returns and in the contents of the decoded
    message. *)
Theorem C6_location_rewritten
        (location : Tag) (url q z latitude longitude : string)
        (qs zs : list string) :
  getitem (Some location) "href" = inr url ->
  dict_get (parse_qs (urlparse_query url)) "q" = inr (q :: qs) ->
  dict_get (parse_qs (urlparse_query url)) "z" = inr (z :: zs) ->
  split "," q = [latitude; longitude] ->
  let item :=
    CLocation (name (LOCATION T))
      ("https://www.openstreetmap.org/?lat=" ++ latitude ++ "&lon="
         ++ longitude ++ "&zoom=" ++ z ++ "&layers=M")%string
      latitude longitude in
  location_item location = inr item
  /\ (forall rest contents,
         location_loop (location :: rest) contents
         = location_loop rest (contents ++ [item]))
  /\ (forall contents,
         location_loop [location] contents = inr (contents ++ [item]))
  /\ (forall locations contents r,
         In location locations ->
         location_loop locations contents = inr r ->
         In item r)
  /\ (forall bubble message,
         In location (select (selector (LOCATION T)) bubble) ->
         decode bubble = inr message ->
         In item (contents message)).
Proof.
  intros Hhref Hq Hz Hsplit item.
  assert (Hitem : location_item location = inr item).
  { unfold location_item. rewrite Hhref. cbn [bind].
    rewrite Hq. cbn [bind index nth_error ret].
    rewrite Hz. cbn [bind index nth_error ret].
    rewrite Hsplit. reflexivity. }
  split; [exact Hitem |].
  split; [| split; [| split]].
  - intros rest contents. cbn [location_loop]. rewrite Hitem. reflexivity.
  - intros contents. cbn [location_loop]. rewrite Hitem. reflexivity.
  - intros locations contents r Hin Hloop.
    eapply location_loop_keeps; eassumption.
  - intros bubble message Hin Hdecode. unfold decode in Hdecode.
    do 9 (apply bind_inr in Hdecode; destruct Hdecode as (? & _ & Hdecode)).
    apply bind_inr in Hdecode. destruct Hdecode as (c5 & _ & Hdecode).
    apply bind_inr in Hdecode. destruct Hdecode as (c6 & Hlocations & Hdecode).
    apply bind_inr in Hdecode. destruct Hdecode as (c7 & Hpolls & Hdecode).
    apply bind_inr in Hdecode. destruct Hdecode as (c8 & Hunsupported & Hdecode).
    inversion Hdecode; subst message. cbn [contents].
    rewrite poll_loop_app in Hpolls.
    apply bind_inr in Hpolls. destruct Hpolls as (polls & _ & Hc7).
    rewrite unsupported_loop_app in Hunsupported.
    apply bind_inr in Hunsupported. destruct Hunsupported as (unsupported & _ & Hc8).
    inversion Hc7; inversion Hc8; subst.
    apply in_or_app. left. apply in_or_app. left.
    eapply location_loop_keeps; eassumption.
Qed.

Lemma unsupported_loop_cat medias1 medias2 contents :
  unsupported_loop (medias1 ++ medias2) contents
  = (contents' <- unsupported_loop medias1 contents ;;
     unsupported_loop medias2 contents').
Proof.
  revert contents.
  induction medias1 as [| m rest IH]; intros contents; simpl.
  - reflexivity.
  - destruct (getitem (select_one (selector (UNSUPPORTED_MEDIA_URL T)) m) "href")
      as [[] | url]; simpl; try reflexivity; apply IH.
Qed.

(** C9, as amended.  An unsupported-media node whose link element is
    found and has no [href] adds no item and raises nothing: the loop goes
    on as if the node were not there. *)
Theorem C9_unlinked_media_dropped (media link : Tag) :
  select_one (selector (UNSUPPORTED_MEDIA_URL T)) media = Some link ->
  ~ has_attr link "href" ->
  (forall contents, unsupported_loop [media] contents = inr contents)
  /\ (forall before after contents,
         unsupported_loop (before ++ media :: after) contents
         = unsupported_loop (before ++ after) contents).
Proof.
  intros Hlink Hno.
  assert (Hstep : forall rest contents,
             unsupported_loop (media :: rest) contents
             = unsupported_loop rest contents).
  { intros rest contents. cbn [unsupported_loop].
    rewrite Hlink, (getitem_no_attr _ _ Hno). reflexivity. }
  split.
  - intros contents. rewrite Hstep. reflexivity.
  - intros before after contents.
    rewrite !unsupported_loop_cat.
    destruct (unsupported_loop before contents) as [e | contents'];
      cbn [bind]; [reflexivity | apply Hstep].
Qed.

End Extractors.

(** ** The claims on sample documents *)

Import Sample Scenario.

Lemma C1_exhausted_is_sticky_witness :
  position exhausted = Some "0"
  /\ @fetch_calls (env channel_pages) exhausted [1; 3; 0]%Z
     = (exhausted, [([], inl FeedEnd); ([], inl FeedEnd); ([], inl FeedEnd)]).
Proof.
  split; [reflexivity |].
  apply (@C1_exhausted_is_sticky (env channel_pages) exhausted [1; 3; 0]%Z).
  reflexivity.
Defined.

Lemma C10_zero_pages_witness :
  position fresh <> Some "0"
  /\ @fetch_to_python (env channel_pages) fresh 0 = (fresh, [], inr []).
Proof.
  split; [discriminate |].
  apply (@C10_zero_pages (env channel_pages) fresh). discriminate.
Defined.

(** C2.  Scenario D on the code: three pages are asked for and the second
    answer has no pagination control.  The loop does not stop there: a third
    request is sent with [before=0], and the messages of its answer come
    back after those of the first two pages. *)
Theorem C2_loop_goes_on_without_control :
  @fetch_to_python (env channel_pages) fresh 3
  = (exhausted,
     [ (preview_url, None); (preview_url, Some "5"); (preview_url, Some "0") ],
     inr [ message "6" "2024-01-06T10:00:00+00:00" [CText "text" "six"];
           message "5" "2024-01-05T10:00:00+00:00" [CText "text" "five"];
           message "4" "2024-01-04T10:00:00+00:00" [CText "text" "four"];
           message "3" "2024-01-03T10:00:00+00:00" [CText "text" "three"];
           message "6" "2024-01-06T10:00:00+00:00" [CText "text" "six"] ]).
Proof.
  vm_compute. reflexivity.
Qed.

(** C8.  A bubble with one voice node that has its audio source and its
    duration: the voice loop raises [TypeError] instead of adding an item,
    and the call that collected the bubble returns nothing. *)
Theorem C8_voice_node_raises :
  @select (env []) (selector (VOICE types)) voice_bubble = [voice_node]
  /\ @voice_loop (env []) [voice_node] [] = inl TypeError
  /\ @decode (env []) voice_bubble = inl TypeError
  /\ @fetch_to_python (env [(None, voice_page)]) fresh 1
     = (mkTGChannel "chan" (Some "9"), [(preview_url, None)], inl TypeError).
Proof.
  repeat split; vm_compute; reflexivity.
Qed.

(** C3, the claim as stated fails: a page with a complete bubble and one
    without author.  The complete bubble decodes, yet the call raises
    [AttributeError] instead of returning its message. *)
Lemma C3_anonymous_bubble_fails_the_call :
  @lacks_required (env [(None, anonymous_page)]) anonymous_bubble
  /\ @select (env [(None, anonymous_page)]) ".tgme_widget_message_bubble"
       anonymous_page
     = [ bubble "7" "Ann" "2024-01-07T10:00:00+00:00" [text_node "seven"];
         anonymous_bubble ]
  /\ @decode (env [(None, anonymous_page)])
       (bubble "7" "Ann" "2024-01-07T10:00:00+00:00" [text_node "seven"])
     = inr (message "7" "2024-01-07T10:00:00+00:00" [CText "text" "seven"])
  /\ @fetch_to_python (env [(None, anonymous_page)]) fresh 1
     = (mkTGChannel "chan" (Some "7"), [(preview_url, None)], inl AttributeError)
  /\ snd (@fetch_to_python (env [(None, anonymous_page)]) fresh 1)
     <> inr [message "7" "2024-01-07T10:00:00+00:00" [CText "text" "seven"]].
Proof.
  split; [right; left; reflexivity |].
  repeat split; try (vm_compute; reflexivity).
  vm_compute. discriminate.
Qed.

Lemma C3_missing_metadata_aborts_witness :
  @lacks_required (env [(None, anonymous_page)]) anonymous_bubble
  /\ In anonymous_bubble
       (@collected_bubbles (env [(None, anonymous_page)]) fresh 1)
  /\ exists e,
      snd (@fetch_to_python (env [(None, anonymous_page)]) fresh 1) = inl e
      /\ e <> FeedEnd.
Proof.
  split; [right; left; reflexivity |].
  split; [left; reflexivity |].
  destruct (@C3_missing_metadata_aborts (env [(None, anonymous_page)])
              anonymous_bubble (or_intror (or_introl eq_refl)))
    as (e & _ & _ & _ & _ & Hcall).
  apply (Hcall fresh 1%Z). left. reflexivity.
Defined.

(** C4, the claim as stated fails: two pages of one message each.  The
    message of the first request is the newer one and comes first. *)
Lemma C4_newer_page_comes_first :
  @fetch_to_python (env two_pages) fresh 2
  = (mkTGChannel "chan" (Some "1"),
     [ (preview_url, None); (preview_url, Some "2") ],
     inr [ message "2" "2024-01-02T10:00:00+00:00" [CText "text" "second"];
           message "1" "2024-01-01T10:00:00+00:00" [CText "text" "first"] ])
  /\ ~ oldest_to_newest
         [ message "2" "2024-01-02T10:00:00+00:00" [CText "text" "second"];
           message "1" "2024-01-01T10:00:00+00:00" [CText "text" "first"] ].
Proof.
  split; [vm_compute; reflexivity |].
  intros Hsorted.
  specialize (Hsorted 0 1 _ _ (Nat.lt_0_succ 0) eq_refl eq_refl).
  vm_compute in Hsorted. discriminate.
Qed.

Lemma C4_pages_reversed_then_concatenated_witness :
  @fetch_to_python (env channel_pages) fresh 2
  = (exhausted,
     [ (preview_url, None); (preview_url, Some "5") ],
     inr [ message "6" "2024-01-06T10:00:00+00:00" [CText "text" "six"];
           message "5" "2024-01-05T10:00:00+00:00" [CText "text" "five"];
           message "4" "2024-01-04T10:00:00+00:00" [CText "text" "four"];
           message "3" "2024-01-03T10:00:00+00:00" [CText "text" "three"] ])
  /\ exists blocks : list (list Message),
      Forall2
        (fun soup block =>
           Forall2
             (fun bubble message =>
                @decode (env channel_pages) bubble = inr message)
             (rev (@select (env channel_pages) ".tgme_widget_message_bubble" soup))
             block)
        (filter (@collected (env channel_pages))
           (@responses (env channel_pages)
              [ (preview_url, None); (preview_url, Some "5") ]))
        blocks
      /\ [ message "6" "2024-01-06T10:00:00+00:00" [CText "text" "six"];
           message "5" "2024-01-05T10:00:00+00:00" [CText "text" "five"];
           message "4" "2024-01-04T10:00:00+00:00" [CText "text" "four"];
           message "3" "2024-01-03T10:00:00+00:00" [CText "text" "three"] ]
         = concat blocks.
Proof.
  split; [vm_compute; reflexivity |].
  apply (@C4_pages_reversed_then_concatenated (env channel_pages)
           fresh exhausted 2%Z).
  vm_compute. reflexivity.
Defined.

Lemma C5_contents_in_fixed_order_witness :
  @decode (env []) mixed_bubble
  = inr (message "11" "2024-01-11T10:00:00+00:00"
           [ CText "text" "hello";
             CPhoto "photo" "http://x/y.jpg";
             CLocation "location"
               "https://www.openstreetmap.org/?lat=40.1&lon=-73.9&zoom=15&layers=M"
               "40.1" "-73.9";
             CUnsupported "unsupported_media" "https://t.me/chan/11" ])
  /\ ascending
       [ CText "text" "hello";
         CPhoto "photo" "http://x/y.jpg";
         CLocation "location"
           "https://www.openstreetmap.org/?lat=40.1&lon=-73.9&zoom=15&layers=M"
           "40.1" "-73.9";
         CUnsupported "unsupported_media" "https://t.me/chan/11" ].
Proof.
  split; [vm_compute; reflexivity |].
  destruct (@C5_contents_in_fixed_order (env []) mixed_bubble
              (message "11" "2024-01-11T10:00:00+00:00"
                 [ CText "text" "hello";
                   CPhoto "photo" "http://x/y.jpg";
                   CLocation "location"
                     "https://www.openstreetmap.org/?lat=40.1&lon=-73.9&zoom=15&layers=M"
                     "40.1" "-73.9";
                   CUnsupported "unsupported_media" "https://t.me/chan/11" ])
              ltac:(vm_compute; reflexivity))
    as (texts & photos & videos & voices & documents & locations & polls
        & unsupported & _ & _ & _ & _ & _ & _ & _ & _ & _ & Hascending).
  exact Hascending.
Defined.

Lemma C6_location_rewritten_witness :
  getitem (Some location_node) "href"
  = inr "https://maps.google.com/maps?q=40.1,-73.9&z=15"%string
  /\ dict_get (fields_of (query_of "https://maps.google.com/maps?q=40.1,-73.9&z=15"))
       "q" = inr ["40.1,-73.9"%string]
  /\ dict_get (fields_of (query_of "https://maps.google.com/maps?q=40.1,-73.9&z=15"))
       "z" = inr ["15"%string]
  /\ split "," "40.1,-73.9" = ["40.1"%string; "-73.9"%string]
  /\ @location_item (env []) location_node
     = inr (CLocation "location"
              "https://www.openstreetmap.org/?lat=40.1&lon=-73.9&zoom=15&layers=M"
              "40.1" "-73.9")
  /\ @location_loop (env []) [location_node] []
     = inr [CLocation "location"
              "https://www.openstreetmap.org/?lat=40.1&lon=-73.9&zoom=15&layers=M"
              "40.1" "-73.9"]
  /\ In (CLocation "location"
           "https://www.openstreetmap.org/?lat=40.1&lon=-73.9&zoom=15&layers=M"
           "40.1" "-73.9")
       (contents
          (message "11" "2024-01-11T10:00:00+00:00"
             [ CText "text" "hello";
               CPhoto "photo" "http://x/y.jpg";
               CLocation "location"
                 "https://www.openstreetmap.org/?lat=40.1&lon=-73.9&zoom=15&layers=M"
                 "40.1" "-73.9";
               CUnsupported "unsupported_media" "https://t.me/chan/11" ])).
Proof.
  do 4 (split; [vm_compute; reflexivity |]).
  destruct (@C6_location_rewritten (env []) location_node
              "https://maps.google.com/maps?q=40.1,-73.9&z=15"
              "40.1,-73.9" "15" "40.1" "-73.9" [] []
              eq_refl eq_refl eq_refl eq_refl)
    as (Hitem & _ & Hone & _ & Hmessage).
  split; [exact Hitem |].
  split; [exact (Hone []) |].
  apply (Hmessage mixed_bubble).
  - vm_compute. left. reflexivity.
  - vm_compute. reflexivity.
Defined.

(** C7, the claim as stated fails: a bubble with a photo node without
    [style] followed by a well-formed one.  The well-formed node alone gives
    its item, yet the call raises [KeyError]: the second photo is not
    extracted and the message is not returned. *)
Lemma C7_unstyled_photo_fails_the_call :
  @select (env [(None, photo_page)]) (selector (PHOTO types)) photo_bubble
  = [photo_node []; styled_photo]
  /\ @photo_loop (env [(None, photo_page)]) [styled_photo] []
     = inr [CPhoto "photo" "http://x/y.jpg"]
  /\ @decode (env [(None, photo_page)]) photo_bubble = inl KeyError
  /\ @fetch_to_python (env [(None, photo_page)]) fresh 1
     = (mkTGChannel "chan" (Some "8"), [(preview_url, None)], inl KeyError)
  /\ snd (@fetch_to_python (env [(None, photo_page)]) fresh 1)
     <> inr [ message "9" "2024-01-09T10:00:00+00:00"
                [CPhoto "photo" "http://x/y.jpg"] ].
Proof.
  repeat split; try (vm_compute; reflexivity).
  vm_compute. discriminate.
Qed.

Lemma no_style_on_bare_photo : ~ has_attr (photo_node []) "style".
Proof.
  intros [v Hin]. simpl in Hin. destruct Hin as [Hin | []]. discriminate.
Qed.

Lemma C7_photo_without_style_aborts_witness :
  In (photo_node [])
    (@select (env [(None, photo_page)]) (selector (PHOTO types)) photo_bubble)
  /\ ~ has_attr (photo_node []) "style"
  /\ In photo_bubble (@collected_bubbles (env [(None, photo_page)]) fresh 1)
  /\ exists e,
      snd (@fetch_to_python (env [(None, photo_page)]) fresh 1) = inl e
      /\ e <> FeedEnd.
Proof.
  split; [left; reflexivity |].
  split; [exact no_style_on_bare_photo |].
  split; [left; reflexivity |].
  destruct (@C7_photo_without_style_aborts (env [(None, photo_page)])
              photo_bubble (photo_node [])
              (or_introl eq_refl) no_style_on_bare_photo)
    as (_ & _ & _ & Hcall).
  apply (Hcall fresh 1%Z). left. reflexivity.
Defined.

Lemma no_href_on_bare_link :
  ~ has_attr (elem "message_media_view_in_telegram" [] "VIEW IN TELEGRAM" []) "href".
Proof.
  intros [v Hin]. simpl in Hin. destruct Hin as [Hin | []]. discriminate.
Qed.

Lemma C9_unlinked_media_dropped_witness :
  @select_one (env []) (selector (UNSUPPORTED_MEDIA_URL types)) unlinked_media
  = Some (elem "message_media_view_in_telegram" [] "VIEW IN TELEGRAM" [])
  /\ ~ has_attr (elem "message_media_view_in_telegram" [] "VIEW IN TELEGRAM" []) "href"
  /\ @unsupported_loop (env []) [linked_media; unlinked_media; linked_media] []
     = @unsupported_loop (env []) [linked_media; linked_media] [].
Proof.
  split; [reflexivity |].
  split; [exact no_href_on_bare_link |].
  apply (proj2 (@C9_unlinked_media_dropped (env []) unlinked_media
                  (elem "message_media_view_in_telegram" [] "VIEW IN TELEGRAM" [])
                  eq_refl no_href_on_bare_link)
           [linked_media] [linked_media] []).
Defined.

(** C9, the claim as stated fails: an unsupported-media node below which
    no link element is found has no link attribute either, yet the loop
    raises [TypeError] on it, and so does the call that collected its
    message. *)
Lemma C9_media_without_link_element_raises :
  @select_one (env [(None, Gallery.bare_page)])
    (selector (UNSUPPORTED_MEDIA_URL types)) Gallery.bare_media = None
  /\ @unsupported_loop (env [(None, Gallery.bare_page)]) [Gallery.bare_media] []
     = inl TypeError
  /\ @unsupported_loop (env [(None, Gallery.bare_page)]) [Gallery.bare_media] []
     <> inr []
  /\ @fetch_to_python (env [(None, Gallery.bare_page)]) fresh 1
     = (mkTGChannel "chan" (Some "12"%string), [(preview_url, None)],
        inl TypeError).
Proof.
  repeat split; try (vm_compute; reflexivity).
  vm_compute. discriminate.
Qed.


(** ** Further properties: when [FeedEnd] is raised *)

Section FeedEndOnEntry.

Context {env : Env}.

(** X1.  A call raises [FeedEnd] exactly when the cursor of the session is
    ["0"] on entry: no request, no page and no message can make it raise
    that exception later on. *)
Theorem feed_end_only_on_entry (self : TGChannel) (pages_to_fetch : Z) :
  snd (fetch_to_python self pages_to_fetch) = inl FeedEnd
  <-> position self = Some "0".
Proof.
  split.
  - unfold fetch_to_python.
    destruct (position_eqb (position self) "0") eqn:Hpos.
    + intros _. apply position_eqb_true. exact Hpos.
    + destruct (page_loop _ _ _ _ _) as [[position' all_bubbles] sent].
      simpl. intros H. exfalso.
      exact (no_feed_end_message_loop all_bubbles [] H).
  - intros Hpos. rewrite (fetch_exhausted self pages_to_fetch Hpos). reflexivity.
Qed.

End FeedEndOnEntry.

(** ** Further properties: the requests of a call *)

Section Requests.

Context {env : Env}.

Lemma next_cursor_raised soup e :
  getitem (select_one ".tme_messages_more" soup) "data-before" = inl e ->
  next_cursor soup = "0"%string.
Proof.
  intros H. unfold next_cursor. rewrite H. reflexivity.
Qed.

Lemma next_cursor_read soup before :
  getitem (select_one ".tme_messages_more" soup) "data-before" = inr before ->
  next_cursor soup = before.
Proof.
  intros H. unfold next_cursor. rewrite H. reflexivity.
Qed.

Lemma cursor_after_last position front r :
  cursor_after position (front ++ [r])
  = Some (next_cursor (session_get (fst r) (snd r))).
Proof.
  revert position. induction front as [| r' front IH]; intros position; simpl.
  - reflexivity.
  - apply IH.
Qed.

(** The trace of one run of the page loop. *)
Lemma page_loop_trace url pages position all_bubbles sent :
  exists new,
    snd (page_loop url pages position all_bubbles sent) = sent ++ new
    /\ chained url position new
    /\ fst (fst (page_loop url pages position all_bubbles sent))
       = cursor_after position new
    /\ Forall (fun r => fst r = url) new
    /\ (length new = pages
        \/ (length new < pages
            /\ exists front r,
                new = front ++ [r]
                /\ collected (session_get (fst r) (snd r)) = false)).
Proof.
  revert position all_bubbles sent.
  induction pages as [| pages IH]; intros position all_bubbles sent.
  - exists []. simpl. rewrite app_nil_r.
    repeat split; [constructor | left; reflexivity].
  - simpl.
    destruct (getitem (select_one ".tme_messages_more" (session_get url position))
                "data-before") as [e | before] eqn:Hcursor.
    + destruct (getitem_exn _ _ _ Hcursor) as [-> | ->].
      * destruct (IH (Some "0"%string)
                    (all_bubbles ++ rev (select ".tgme_widget_message_bubble"
                                           (session_get url position)))
                    (sent ++ [(url, position)]))
          as (new & Hsent & Hchain & Hpos & Hurl & Hlen).
        exists ((url, position) :: new). simpl.
        rewrite (next_cursor_raised _ _ Hcursor).
        rewrite Hsent, Hpos, <- app_assoc.
        repeat split; try assumption; [constructor; [reflexivity | assumption] |].
        destruct Hlen as [Hlen | (Hlen & front & r & -> & Hbreak)].
        -- left. rewrite Hlen. reflexivity.
        -- right. split; [lia |].
           exists ((url, position) :: front), r. split; [reflexivity | exact Hbreak].
      * exists [(url, position)]. simpl.
        rewrite (next_cursor_raised _ _ Hcursor).
        repeat split; [constructor; [reflexivity | constructor] |].
        destruct pages as [| pages]; [left; reflexivity | right].
        split; [lia |].
        exists [], (url, position). split; [reflexivity |].
        unfold collected. simpl. rewrite Hcursor. reflexivity.
    + destruct (IH (Some before)
                  (all_bubbles ++ rev (select ".tgme_widget_message_bubble"
                                         (session_get url position)))
                  (sent ++ [(url, position)]))
        as (new & Hsent & Hchain & Hpos & Hurl & Hlen).
      exists ((url, position) :: new). simpl.
      rewrite (next_cursor_read _ _ Hcursor).
      rewrite Hsent, Hpos, <- app_assoc.
      repeat split; try assumption; [constructor; [reflexivity | assumption] |].
      destruct Hlen as [Hlen | (Hlen & front & r & -> & Hbreak)].
      -- left. rewrite Hlen. reflexivity.
      -- right. split; [lia |].
         exists ((url, position) :: front), r. split; [reflexivity | exact Hbreak].
Qed.

(** The trace of a call that went past the test of the cursor. *)
Lemma fetch_trace (self : TGChannel) (pages_to_fetch : Z) :
  position self <> Some "0"%string ->
  exists position' all_bubbles sent,
    fetch_to_python self pages_to_fetch
    = (mkTGChannel (channel_id self) position', sent, message_loop all_bubbles [])
    /\ chained (preview_address self) (position self) sent
    /\ position' = cursor_after (position self) sent
    /\ Forall (fun r => fst r = preview_address self) sent
    /\ (length sent = Z.to_nat pages_to_fetch
        \/ (length sent < Z.to_nat pages_to_fetch
            /\ exists front r,
                sent = front ++ [r]
                /\ collected (session_get (fst r) (snd r)) = false)).
Proof.
  intros Hpos. unfold fetch_to_python.
  destruct (position_eqb (position self) "0") eqn:Heq.
  - exfalso. apply Hpos. apply position_eqb_true. exact Heq.
  - destruct (page_loop_trace (preview_address self) (Z.to_nat pages_to_fetch)
                (position self) [] [])
      as (new & Hsent & Hchain & Hcursor & Hurl & Hlen).
    unfold preview_address in *.
    destruct (page_loop _ _ _ _ _) as [[position' all_bubbles] sent].
    simpl in Hsent, Hcursor. subst sent position'.
    exists (cursor_after (position self) new), all_bubbles, new.
    repeat split; assumption.
Qed.

Lemma fetch_cursor (self : TGChannel) (pages_to_fetch : Z) :
  position (fst (fst (fetch_to_python self pages_to_fetch)))
  = cursor_after (position self) (snd (fst (fetch_to_python self pages_to_fetch))).
Proof.
  destruct (position_eqb (position self) "0") eqn:Heq.
  - apply position_eqb_true in Heq.
    rewrite (fetch_exhausted self pages_to_fetch Heq). reflexivity.
  - assert (Hpos : position self <> Some "0"%string).
    { intros H. apply position_eqb_true in H. congruence. }
    destruct (fetch_trace self pages_to_fetch Hpos)
      as (position' & all_bubbles & sent & -> & _ & Hcursor & _ & _).
    exact Hcursor.
Qed.

(** X2.  A call sends at most as many requests as pages were asked for
    (none for zero or a negative number), sends them all to the preview
    address of its channel, and leaves the channel id of the session as it
    was. *)
Theorem requests_bounded_and_addressed (self : TGChannel) (pages_to_fetch : Z) :
  let '(self', sent, _) := fetch_to_python self pages_to_fetch in
  length sent <= Z.to_nat pages_to_fetch
  /\ Forall (fun r => fst r = preview_address self) sent
  /\ channel_id self' = channel_id self.
Proof.
  destruct (position_eqb (position self) "0") eqn:Heq.
  - apply position_eqb_true in Heq.
    rewrite (fetch_exhausted self pages_to_fetch Heq).
    repeat split; [simpl; lia | constructor].
  - assert (Hpos : position self <> Some "0"%string).
    { intros H. apply position_eqb_true in H. congruence. }
    destruct (fetch_trace self pages_to_fetch Hpos)
      as (position' & all_bubbles & sent & -> & _ & _ & Hurl & Hlen).
    repeat split; [| exact Hurl].
    destruct Hlen as [-> | [Hlt _]]; lia.
Qed.

(** X3.  The requests of a call form a chain: the first carries the cursor
    the session had on entry, each later one the cursor read from the
    answer before it (["0"] when that answer had none), and the session is
    left with the cursor of the last answer, whether the call returns or
    raises. *)
Theorem requests_follow_the_cursor (self : TGChannel) (pages_to_fetch : Z) :
  let '(self', sent, _) := fetch_to_python self pages_to_fetch in
  chained (preview_address self) (position self) sent
  /\ position self' = cursor_after (position self) sent.
Proof.
  destruct (position_eqb (position self) "0") eqn:Heq.
  - apply position_eqb_true in Heq.
    rewrite (fetch_exhausted self pages_to_fetch Heq).
    split; reflexivity.
  - assert (Hpos : position self <> Some "0"%string).
    { intros H. apply position_eqb_true in H. congruence. }
    destruct (fetch_trace self pages_to_fetch Hpos)
      as (position' & all_bubbles & sent & -> & Hchain & Hcursor & _ & _).
    split; assumption.
Qed.

(** X4.  On a session that is not exhausted, a call sends one request per
    page asked for, unless the answer to its last request has a pagination
    control without [data-before]: only that cuts the loop short. *)
Theorem requests_stop_short_only_on_break (self : TGChannel) (pages_to_fetch : Z) :
  position self <> Some "0"%string ->
  let '(_, sent, _) := fetch_to_python self pages_to_fetch in
  length sent = Z.to_nat pages_to_fetch
  \/ exists front r,
      sent = front ++ [r]
      /\ collected (session_get (fst r) (snd r)) = false.
Proof.
  intros Hpos.
  destruct (fetch_trace self pages_to_fetch Hpos)
    as (position' & all_bubbles & sent & -> & _ & _ & _ & Hlen).
  destruct Hlen as [Hlen | (_ & front & r & Hsent & Hbreak)].
  - left. exact Hlen.
  - right. exists front, r. split; assumption.
Qed.

(** X5.  When the answer to the last request of a call has no cursor to
    read (no pagination control, or one without [data-before]), the
    session is left exhausted: every later call raises [FeedEnd] and sends
    nothing. *)
Theorem last_page_without_cursor_exhausts
        (self self' : TGChannel) (pages_to_fetch : Z)
        (front : list Request) (r : Request) (outcome : result (list Message)) :
  fetch_to_python self pages_to_fetch = (self', front ++ [r], outcome) ->
  raises (getitem (select_one ".tme_messages_more" (session_get (fst r) (snd r)))
            "data-before") ->
  position self' = Some "0"%string
  /\ forall pages, fetch_to_python self' pages = (self', [], inl FeedEnd).
Proof.
  intros Hcall [e He].
  assert (Hpos : position self' = Some "0"%string).
  { pose proof (fetch_cursor self pages_to_fetch) as Haux.
    rewrite Hcall in Haux. simpl in Haux. rewrite Haux, cursor_after_last.
    rewrite (next_cursor_raised _ _ He). reflexivity. }
  split; [exact Hpos |].
  intros pages. apply fetch_exhausted. exact Hpos.
Qed.

End Requests.

(** ** Further properties: resuming a session *)

Section Resume.

Context {env : Env}.

Lemma page_loop_frame url pages position all_bubbles sent :
  page_loop url pages position all_bubbles sent
  = (fst (fst (page_loop url pages position [] [])),
     all_bubbles ++ snd (fst (page_loop url pages position [] [])),
     sent ++ snd (page_loop url pages position [] [])).
Proof.
  revert position all_bubbles sent.
  induction pages as [| pages IH]; intros position all_bubbles sent; simpl.
  - rewrite !app_nil_r. reflexivity.
  - destruct (getitem (select_one ".tme_messages_more" (session_get url position))
                "data-before") as [[] | before];
      simpl; rewrite ?app_nil_r; try reflexivity.
    + rewrite (IH (Some "0"%string) (all_bubbles ++ _) (sent ++ _)).
      rewrite (IH (Some "0"%string) (rev _) [_]).
      simpl. rewrite <- !app_assoc. reflexivity.
    + rewrite (IH (Some before) (all_bubbles ++ _) (sent ++ _)).
      rewrite (IH (Some before) (rev _) [_]).
      simpl. rewrite <- !app_assoc. reflexivity.
Qed.

(** A loop that did not leave the cursor at ["0"] ran to its end, and a longer
    loop goes on from where it stopped. *)
Lemma page_loop_plus url pages more_pages position all_bubbles sent :
  fst (fst (page_loop url pages position all_bubbles sent)) <> Some "0"%string ->
  page_loop url (pages + more_pages) position all_bubbles sent
  = page_loop url more_pages
      (fst (fst (page_loop url pages position all_bubbles sent)))
      (snd (fst (page_loop url pages position all_bubbles sent)))
      (snd (page_loop url pages position all_bubbles sent)).
Proof.
  revert position all_bubbles sent.
  induction pages as [| pages IH]; intros position all_bubbles sent; simpl.
  - reflexivity.
  - destruct (getitem (select_one ".tme_messages_more" (session_get url position))
                "data-before") as [e | before] eqn:Hcursor.
    + destruct (getitem_exn _ _ _ Hcursor) as [-> | ->].
      * apply IH.
      * simpl. intros Hpos. exfalso. apply Hpos. reflexivity.
    + apply IH.
Qed.

(** X6.  Resuming a session gives what one longer call gives: when a call
    for [n] pages leaves the session not exhausted, a second call for [m]
    pages on it ends in the same session as one call for [n + m] pages,
    after the same requests in the same order; and when both calls return,
    the longer call returns their lists put end to end. *)
Theorem resuming_equals_longer_call
        (self self1 self2 : TGChannel) (n m : Z)
        (sent1 sent2 : list Request) (outcome1 outcome2 : result (list Message)) :
  (0 <= n)%Z -> (0 <= m)%Z ->
  fetch_to_python self n = (self1, sent1, outcome1) ->
  position self1 <> Some "0"%string ->
  fetch_to_python self1 m = (self2, sent2, outcome2) ->
  exists outcome,
    fetch_to_python self (n + m) = (self2, sent1 ++ sent2, outcome)
    /\ forall messages1 messages2,
        outcome1 = inr messages1 ->
        outcome2 = inr messages2 ->
        outcome = inr (messages1 ++ messages2).
Proof.
  intros Hn Hm Hfirst Hgoes Hsecond.
  unfold fetch_to_python in *.
  destruct (position_eqb (position self) "0") eqn:Hentry.
  { injection Hfirst as <- _ _. apply position_eqb_true in Hentry.
    contradiction. }
  destruct (position_eqb (position self1) "0") eqn:Hentry1.
  { apply position_eqb_true in Hentry1. contradiction. }
  rewrite Z2Nat.inj_add by assumption.
  set (url := (TELEGRAM_URL ++ "/s/" ++ channel_id self)%string) in *.
  pose proof (page_loop_plus url (Z.to_nat n) (Z.to_nat m) (position self) [] [])
    as Hplus.
  destruct (page_loop url (Z.to_nat n) (position self) [] [])
    as [[position1 bubbles1] requests1].
  injection Hfirst as <- <- <-.
  cbn [position channel_id fst snd] in Hgoes, Hsecond, Hplus.
  rewrite (Hplus Hgoes), page_loop_frame.
  fold url in Hsecond.
  destruct (page_loop url (Z.to_nat m) position1 [] [])
    as [[position2 bubbles2] requests2].
  injection Hsecond as <- <- <-.
  simpl. eexists. split; [reflexivity |].
  intros messages1 messages2 H1 H2.
  rewrite message_loop_cat, H1. simpl.
  rewrite message_loop_app, H2. reflexivity.
Qed.

(** X7.  The first call on a new session never raises [FeedEnd], and when
    at least one page is asked for its first request goes to the preview
    address of the channel without [before] parameter. *)
Theorem first_call_of_new_session (channel : string) (pages_to_fetch : Z) :
  (1 <= pages_to_fetch)%Z ->
  exists self' rest outcome,
    fetch_to_python (init channel) pages_to_fetch
    = (self', ((TELEGRAM_URL ++ "/s/" ++ channel)%string, None) :: rest, outcome)
    /\ outcome <> inl FeedEnd.
Proof.
  intros Hpages.
  assert (Hpos : position (init channel) <> Some "0"%string) by discriminate.
  destruct (fetch_trace (init channel) pages_to_fetch Hpos)
    as (position' & all_bubbles & sent & Hcall & Hchain & _ & _ & Hlen).
  destruct sent as [| r rest].
  - exfalso. destruct Hlen as [Hlen | (_ & front & r & Hsent & _)].
    + simpl in Hlen. lia.
    + destruct front; discriminate.
  - destruct Hchain as [-> _].
    exists (mkTGChannel (channel_id (init channel)) position'), rest,
      (message_loop all_bubbles []).
    split; [exact Hcall | apply no_feed_end_message_loop].
Qed.

End Resume.

(** ** Further properties: metadata and extraction loops *)

Section Fields.

Context {env : Env}.

Lemma optional_text_value css bubble :
  optional_text css bubble = inr (option_map text (select_one css bubble)).
Proof.
  unfold optional_text. destruct (select_one css bubble); reflexivity.
Qed.

(** X8.  The number of a message is the last part of a link of the form
    [https://t.me/<channel>/<number>]. *)
Theorem number_of_telegram_link (bubble link : Tag) (channel n : string) :
  select_one (selector (MESSAGE_NUMBER T)) bubble = Some link ->
  getitem (Some link) "href" = inr ("https://t.me/" ++ channel ++ "/" ++ n)%string ->
  has_char "/" channel = false ->
  has_char "/" n = false ->
  message_number bubble = inr n.
Proof.
  intros Hlink Hhref Hchannel Hn.
  unfold message_number. rewrite Hlink, Hhref. cbn [bind].
  change ("https://t.me/" ++ channel ++ "/" ++ n)%string
    with ("https:" ++ String "/" ("" ++ String "/" ("t.me" ++ String "/"
            (channel ++ String "/" n))))%string.
  rewrite !split_at_first by (reflexivity || assumption).
  rewrite (split_whole _ _ Hn). reflexivity.
Qed.

(** X9.  The fields of a decoded message: number, author and date are what
    the three required reads give, and views and voters are the text of
    the first matching element, or [None] when there is none. *)
Theorem decoded_metadata (bubble : Tag) (message : Message) :
  decode bubble = inr message ->
  message_number bubble = inr (number message)
  /\ get_text (select_one (selector (MESSAGE_AUTHOR T)) bubble)
     = inr (author message)
  /\ getitem (select_one (selector (MESSAGE_DATE T)) bubble) "datetime"
     = inr (date message)
  /\ views message
     = option_map text (select_one (selector (MESSAGE_VIEWS T)) bubble)
  /\ voters message
     = option_map text (select_one (selector (MESSAGE_VOTERS T)) bubble).
Proof.
  unfold decode. intros H.
  apply bind_inr in H. destruct H as (n & Hn & H).
  apply bind_inr in H. destruct H as (a & Ha & H).
  apply bind_inr in H. destruct H as (d & Hd & H).
  rewrite !optional_text_value in H. cbn [bind] in H.
  repeat (apply bind_inr in H; destruct H as (? & _ & H)).
  inversion H; subst message. simpl.
  repeat split; assumption.
Qed.

(** X10.  The text loop never raises: it adds one item per matched node,
    in the order of the nodes, each with the text of its node. *)
Theorem text_loop_total (texts : list Tag) (contents : list Content) :
  text_loop texts contents = inr (contents ++ map text_item texts).
Proof.
  revert contents. induction texts as [| t rest IH]; intros contents; simpl.
  - rewrite app_nil_r. reflexivity.
  - rewrite IH, <- app_assoc. reflexivity.
Qed.

(** X11.  The address of a photo is what stands between the first two
    quotes of its [style]. *)
Theorem photo_url_between_quotes
        (photo : Tag) (before_quote url after_quote : string)
        (rest : list Tag) (contents : list Content) :
  getitem (Some photo) "style"
  = inr (before_quote ++ "'" ++ url ++ "'" ++ after_quote)%string ->
  has_char "'" before_quote = false ->
  has_char "'" url = false ->
  photo_loop (photo :: rest) contents
  = photo_loop rest (contents ++ [CPhoto (name (PHOTO T)) url]).
Proof.
  intros Hstyle Hbefore Hurl.
  cbn [photo_loop]. rewrite Hstyle. cbn [bind]. unfold style_url.
  change (before_quote ++ "'" ++ url ++ "'" ++ after_quote)%string
    with (before_quote ++ String "'" (url ++ String "'" after_quote))%string.
  rewrite !split_at_first by assumption. reflexivity.
Qed.

(** X12.  A photo whose [style] has no quote makes the photo loop raise
    [IndexError]. *)
Theorem photo_style_without_quote
        (photo : Tag) (style : string) (rest : list Tag) (contents : list Content) :
  getitem (Some photo) "style" = inr style ->
  has_char "'" style = false ->
  photo_loop (photo :: rest) contents = inl IndexError.
Proof.
  intros Hstyle Hno.
  cbn [photo_loop]. rewrite Hstyle. cbn [bind]. unfold style_url.
  rewrite (split_whole _ _ Hno). reflexivity.
Qed.

(** X13.  When every unsupported-media node has its link element, the
    loop never raises: it adds the item of each node whose link carries
    [href], in the order of the nodes, and nothing for the others. *)
Theorem unsupported_loop_with_links (medias : list Tag) (contents : list Content) :
  (forall media, In media medias ->
     select_one (selector (UNSUPPORTED_MEDIA_URL T)) media <> None) ->
  unsupported_loop medias contents
  = inr (contents ++ flat_map unsupported_items medias).
Proof.
  revert contents. induction medias as [| m rest IH]; intros contents Hlinks.
  - simpl. rewrite app_nil_r. reflexivity.
  - assert (Hrest : forall media, In media rest ->
               select_one (selector (UNSUPPORTED_MEDIA_URL T)) media <> None).
    { intros media Hin. apply Hlinks. right. exact Hin. }
    cbn [unsupported_loop flat_map]. unfold unsupported_items at 1.
    destruct (select_one (selector (UNSUPPORTED_MEDIA_URL T)) m) as [link |] eqn:Hlink.
    + destruct (getitem (Some link) "href") as [e | url] eqn:Hhref.
      * apply dict_get_exn in Hhref. subst e. apply IH. exact Hrest.
      * rewrite (IH _ Hrest), <- app_assoc. reflexivity.
    + exfalso. apply (Hlinks m); [left; reflexivity | exact Hlink].
Qed.

(** X14.  An unsupported-media node without link element makes the loop
    raise [TypeError], wherever the node stands in the list. *)
Theorem unsupported_loop_without_link
        (medias : list Tag) (media : Tag) (contents : list Content) :
  In media medias ->
  select_one (selector (UNSUPPORTED_MEDIA_URL T)) media = None ->
  unsupported_loop medias contents = inl TypeError.
Proof.
  intros Hin Hnone. revert contents.
  induction medias as [| m rest IH]; intros contents.
  - contradiction.
  - cbn [unsupported_loop].
    destruct Hin as [-> | Hin].
    + rewrite Hnone. reflexivity.
    + destruct (getitem (select_one (selector (UNSUPPORTED_MEDIA_URL T)) m) "href")
        as [e | url] eqn:Hhref.
      * destruct (getitem_exn _ _ _ Hhref) as [-> | ->];
          [reflexivity | apply IH; exact Hin].
      * apply IH. exact Hin.
Qed.

(** X15.  When every document node carries [href], the document loop
    returns: it adds one item per node, in order, with the link of the
    node and every title and size element found below it. *)
Theorem document_loop_all_linked (documents : list Tag) (contents : list Content) :
  (forall document, In document documents -> has_attr document "href") ->
  exists items,
    document_loop documents contents = inr (contents ++ items)
    /\ Forall2
         (fun document item =>
            exists url,
              getitem (Some document) "href" = inr url
              /\ item = document_item document url)
         documents items.
Proof.
  revert contents. induction documents as [| d rest IH]; intros contents Hlinked.
  - exists []. simpl. rewrite app_nil_r. split; [reflexivity | constructor].
  - destruct (getitem_attr d "href" (Hlinked d (or_introl eq_refl))) as [url Hurl].
    destruct (IH (contents ++ [document_item d url])) as (items & Hloop & Hitems).
    { intros document Hin. apply Hlinked. right. exact Hin. }
    exists (document_item d url :: items).
    cbn [document_loop]. rewrite Hurl. cbn [bind].
    fold (document_item d url). rewrite Hloop, <- app_assoc.
    split; [reflexivity |].
    constructor; [exists url; split; [exact Hurl | reflexivity] | exact Hitems].
Qed.

(** X16.  A document node without [href] makes the document loop raise
    [KeyError], wherever the node stands in the list. *)
Theorem document_loop_without_link
        (documents : list Tag) (document : Tag) (contents : list Content) :
  In document documents ->
  ~ has_attr document "href" ->
  document_loop documents contents = inl KeyError.
Proof.
  intros Hin Hno. revert contents.
  induction documents as [| d rest IH]; intros contents.
  - contradiction.
  - cbn [document_loop].
    destruct (getitem (Some d) "href") as [e | url] eqn:Hhref.
    + apply dict_get_exn in Hhref. subst e. reflexivity.
    + cbn [bind]. apply IH.
      destruct Hin as [-> | Hin]; [| exact Hin].
      rewrite (getitem_no_attr _ _ Hno) in Hhref. discriminate.
Qed.

(** X17.  A location link whose query has no [q], or has [q] and no [z],
    raises [KeyError]. *)
Theorem location_without_parameter (location : Tag) (url : string) :
  getitem (Some location) "href" = inr url ->
  (forall v, ~ In ("q"%string, v) (parse_qs (urlparse_query url)))
  \/ ((exists q qs, dict_get (parse_qs (urlparse_query url)) "q" = inr (q :: qs))
      /\ forall v, ~ In ("z"%string, v) (parse_qs (urlparse_query url))) ->
  location_item location = inl KeyError.
Proof.
  intros Hhref [Hq | [(q & qs & Hq) Hz]]; unfold location_item;
    rewrite Hhref; cbn [bind].
  - rewrite (dict_get_absent _ _ Hq). reflexivity.
  - rewrite Hq. cbn [bind index nth_error ret].
    rewrite (dict_get_absent _ _ Hz). reflexivity.
Qed.

(** X18.  A location link with [q] and [z] whose [q] does not split at
    commas into exactly two parts raises [ValueError]. *)
Theorem location_with_odd_coordinates
        (location : Tag) (url q z : string) (qs zs : list string) :
  getitem (Some location) "href" = inr url ->
  dict_get (parse_qs (urlparse_query url)) "q" = inr (q :: qs) ->
  dict_get (parse_qs (urlparse_query url)) "z" = inr (z :: zs) ->
  length (split "," q) <> 2 ->
  location_item location = inl ValueError.
Proof.
  intros Hhref Hq Hz Hparts.
  unfold location_item. rewrite Hhref. cbn [bind].
  rewrite Hq. cbn [bind index nth_error ret].
  rewrite Hz. cbn [bind index nth_error ret].
  destruct (split "," q) as [| a [| b [| c l]]]; try reflexivity.
  exfalso. apply Hparts. reflexivity.
Qed.

Lemma option_loop_entries options poll_options r :
  option_loop options poll_options = inr r ->
  exists entries,
    r = poll_options ++ entries /\ Forall2 option_read options entries.
Proof.
  revert poll_options.
  induction options as [| o rest IH]; intros poll_options H; simpl in H.
  - inversion H. exists []. rewrite app_nil_r. split; [reflexivity | constructor].
  - apply bind_inr in H. destruct H as (share & Hshare & H).
    apply bind_inr in H. destruct H as (answer & Hanswer & H).
    destruct (IH _ H) as (entries & -> & Hentries).
    exists (mkPollOption share answer :: entries).
    rewrite <- app_assoc. split; [reflexivity |].
    constructor; [split; assumption | exact Hentries].
Qed.

(** X19.  When the poll loop returns, it has added one item per poll node,
    in order: the item carries the question and the type read from the
    node, and one entry per option block, in the order of the blocks, with
    the percent and the value of its block. *)
Theorem poll_loop_items (polls : list Tag) (contents r : list Content) :
  poll_loop polls contents = inr r ->
  exists items,
    r = contents ++ items
    /\ Forall2
         (fun poll item =>
            exists question kind entries,
              item = CPoll (name (POLL T)) question kind entries
              /\ get_text (select_one (selector (POLL_QUESTION T)) poll)
                 = inr question
              /\ get_text (select_one (selector (POLL_TYPE T)) poll) = inr kind
              /\ Forall2 option_read (select (selector (POLL_OPTIONS T)) poll)
                   entries)
         polls items.
Proof.
  revert contents.
  induction polls as [| p rest IH]; intros contents H; simpl in H.
  - inversion H. exists []. rewrite app_nil_r. split; [reflexivity | constructor].
  - apply bind_inr in H. destruct H as (question & Hquestion & H).
    apply bind_inr in H. destruct H as (kind & Hkind & H).
    apply bind_inr in H. destruct H as (entries & Hentries & H).
    destruct (option_loop_entries _ _ _ Hentries) as (entries' & -> & Hread).
    destruct (IH _ H) as (items & -> & Hitems).
    exists (CPoll (name (POLL T)) question kind entries' :: items).
    rewrite <- app_assoc. split; [reflexivity |].
    constructor; [| exact Hitems].
    exists question, kind, entries'. repeat split; assumption.
Qed.

End Fields.

(** ** The further properties on sample documents *)

Import Gallery.

Lemma requests_stop_short_only_on_break_witness :
  position fresh <> Some "0"%string
  /\ let '(_, sent, _) := @fetch_to_python (env [(None, blunt_page)]) fresh 3 in
     length sent = Z.to_nat 3
     \/ exists front r,
         sent = front ++ [r]
         /\ @collected (env [(None, blunt_page)])
              (@session_get (env [(None, blunt_page)]) (fst r) (snd r)) = false.
Proof.
  split; [discriminate |].
  apply (@requests_stop_short_only_on_break (env [(None, blunt_page)]) fresh 3).
  discriminate.
Defined.

Lemma last_page_without_cursor_exhausts_witness :
  @fetch_to_python (env [(None, blunt_page)]) fresh 3
  = (exhausted, [] ++ [(preview_url, None)], inr [])
  /\ raises (getitem
               (@select_one (env [(None, blunt_page)]) ".tme_messages_more"
                  (@session_get (env [(None, blunt_page)]) preview_url None))
               "data-before")
  /\ position exhausted = Some "0"%string
  /\ @fetch_to_python (env [(None, blunt_page)]) exhausted 2
     = (exhausted, [], inl FeedEnd).
Proof.
  split; [vm_compute; reflexivity |].
  split; [exists KeyError; vm_compute; reflexivity |].
  destruct (@last_page_without_cursor_exhausts (env [(None, blunt_page)])
              fresh exhausted 3 [] (preview_url, None) (inr [])
              ltac:(vm_compute; reflexivity)
              ltac:(exists KeyError; vm_compute; reflexivity))
    as [Hposition Hlater].
  split; [exact Hposition | exact (Hlater 2%Z)].
Defined.

Lemma resuming_equals_longer_call_witness :
  (0 <= 1)%Z /\ (0 <= 2)%Z
  /\ @fetch_to_python (env long_channel) fresh 1
     = (mkTGChannel "chan" (Some "30"%string), [(preview_url, None)],
        inr [message "30" "2024-01-30T10:00:00+00:00" [CText "text" "30"]])
  /\ position (mkTGChannel "chan" (Some "30"%string)) <> Some "0"%string
  /\ @fetch_to_python (env long_channel) (mkTGChannel "chan" (Some "30"%string)) 2
     = (mkTGChannel "chan" (Some "28"%string),
        [(preview_url, Some "30"%string); (preview_url, Some "29"%string)],
        inr [message "29" "2024-01-29T10:00:00+00:00" [CText "text" "29"];
             message "28" "2024-01-28T10:00:00+00:00" [CText "text" "28"]])
  /\ @fetch_to_python (env long_channel) fresh (1 + 2)
     = (mkTGChannel "chan" (Some "28"%string),
        [(preview_url, None)]
          ++ [(preview_url, Some "30"%string); (preview_url, Some "29"%string)],
        inr ([message "30" "2024-01-30T10:00:00+00:00" [CText "text" "30"]]
               ++ [message "29" "2024-01-29T10:00:00+00:00" [CText "text" "29"];
                   message "28" "2024-01-28T10:00:00+00:00" [CText "text" "28"]])).
Proof.
  split; [lia |]. split; [lia |].
  split; [vm_compute; reflexivity |].
  split; [discriminate |].
  split; [vm_compute; reflexivity |].
  destruct (@resuming_equals_longer_call (env long_channel)
              fresh (mkTGChannel "chan" (Some "30"%string))
              (mkTGChannel "chan" (Some "28"%string)) 1 2
              [(preview_url, None)]
              [(preview_url, Some "30"%string); (preview_url, Some "29"%string)]
              (inr [message "30" "2024-01-30T10:00:00+00:00" [CText "text" "30"]])
              (inr [message "29" "2024-01-29T10:00:00+00:00" [CText "text" "29"];
                    message "28" "2024-01-28T10:00:00+00:00" [CText "text" "28"]])
              ltac:(lia) ltac:(lia) ltac:(vm_compute; reflexivity)
              ltac:(discriminate) ltac:(vm_compute; reflexivity))
    as (outcome & Hcall & Houtcome).
  rewrite (Houtcome _ _ eq_refl eq_refl) in Hcall. exact Hcall.
Defined.

Lemma first_call_of_new_session_witness :
  (1 <= 2)%Z
  /\ exists self' rest outcome,
      @fetch_to_python (env long_channel) (init "chan") 2
      = (self', ((TELEGRAM_URL ++ "/s/" ++ "chan")%string, None) :: rest, outcome)
      /\ outcome <> inl FeedEnd.
Proof.
  split; [lia |].
  apply (@first_call_of_new_session (env long_channel) "chan" 2). lia.
Defined.

Lemma number_of_telegram_link_witness :
  @select_one (env []) (selector (MESSAGE_NUMBER types)) viewed_bubble
  = Some (elem "tgme_widget_message_date" [("href", "https://t.me/chan/12")] ""
            [elem "time" [("datetime", "2024-01-12T10:00:00+00:00")] "" []])
  /\ getitem
       (Some (elem "tgme_widget_message_date" [("href", "https://t.me/chan/12")] ""
                [elem "time" [("datetime", "2024-01-12T10:00:00+00:00")] "" []]))
       "href"
     = inr ("https://t.me/" ++ "chan" ++ "/" ++ "12")%string
  /\ has_char "/" "chan" = false
  /\ has_char "/" "12" = false
  /\ @message_number (env []) viewed_bubble = inr "12"%string.
Proof.
  repeat (split; [reflexivity |]).
  apply (@number_of_telegram_link (env []) viewed_bubble
           (elem "tgme_widget_message_date" [("href", "https://t.me/chan/12")] ""
              [elem "time" [("datetime", "2024-01-12T10:00:00+00:00")] "" []])
           "chan" "12");
    reflexivity.
Defined.

Lemma decoded_metadata_witness :
  @decode (env []) viewed_bubble
  = inr (mkMessage "12" "Ann" "2024-01-12T10:00:00+00:00" (Some "1.5K"%string) None
           [CText "text" "seen"])
  /\ views (mkMessage "12" "Ann" "2024-01-12T10:00:00+00:00" (Some "1.5K"%string)
              None [CText "text" "seen"])
     = option_map text
         (@select_one (env []) (selector (MESSAGE_VIEWS types)) viewed_bubble)
  /\ voters (mkMessage "12" "Ann" "2024-01-12T10:00:00+00:00" (Some "1.5K"%string)
               None [CText "text" "seen"])
     = option_map text
         (@select_one (env []) (selector (MESSAGE_VOTERS types)) viewed_bubble).
Proof.
  split; [vm_compute; reflexivity |].
  destruct (@decoded_metadata (env []) viewed_bubble
              (mkMessage "12" "Ann" "2024-01-12T10:00:00+00:00"
                 (Some "1.5K"%string) None [CText "text" "seen"])
              ltac:(vm_compute; reflexivity))
    as (_ & _ & _ & Hviews & Hvoters).
  split; [exact Hviews | exact Hvoters].
Defined.

Lemma photo_url_between_quotes_witness :
  getitem (Some styled_photo) "style"
  = inr ("background-image:url(" ++ "'" ++ "http://x/y.jpg" ++ "'" ++ ")")%string
  /\ has_char "'" "background-image:url(" = false
  /\ has_char "'" "http://x/y.jpg" = false
  /\ @photo_loop (env []) [styled_photo] []
     = inr [CPhoto "photo" "http://x/y.jpg"].
Proof.
  repeat (split; [reflexivity |]).
  exact (@photo_url_between_quotes (env []) styled_photo
           "background-image:url(" "http://x/y.jpg" ")" [] []
           eq_refl eq_refl eq_refl).
Defined.

Lemma photo_style_without_quote_witness :
  getitem (Some plain_photo) "style" = inr "background-image:none"%string
  /\ has_char "'" "background-image:none" = false
  /\ @photo_loop (env []) [plain_photo; styled_photo] [] = inl IndexError.
Proof.
  repeat (split; [reflexivity |]).
  exact (@photo_style_without_quote (env []) plain_photo "background-image:none"
           [styled_photo] [] eq_refl eq_refl).
Defined.

Lemma unsupported_loop_with_links_witness :
  (forall media, In media [linked_media; unlinked_media; linked_media] ->
     @select_one (env []) (selector (UNSUPPORTED_MEDIA_URL types)) media <> None)
  /\ @unsupported_loop (env []) [linked_media; unlinked_media; linked_media] []
     = inr ([] ++ flat_map (@unsupported_items (env []))
                    [linked_media; unlinked_media; linked_media]).
Proof.
  assert (Hlinks : forall media,
             In media [linked_media; unlinked_media; linked_media] ->
             @select_one (env []) (selector (UNSUPPORTED_MEDIA_URL types)) media
             <> None).
  { intros media [<- | [<- | [<- | []]]]; discriminate. }
  split; [exact Hlinks |].
  apply (@unsupported_loop_with_links (env [])
           [linked_media; unlinked_media; linked_media] []).
  exact Hlinks.
Defined.

Lemma unsupported_loop_without_link_witness :
  In bare_media [linked_media; bare_media; linked_media]
  /\ @select_one (env []) (selector (UNSUPPORTED_MEDIA_URL types)) bare_media = None
  /\ @unsupported_loop (env []) [linked_media; bare_media; linked_media] []
     = inl TypeError.
Proof.
  split; [right; left; reflexivity |].
  split; [reflexivity |].
  apply (@unsupported_loop_without_link (env [])
           [linked_media; bare_media; linked_media] bare_media []).
  - right; left; reflexivity.
  - reflexivity.
Defined.

Lemma document_loop_all_linked_witness :
  (forall document, In document [report; notes] -> has_attr document "href")
  /\ exists items,
      @document_loop (env []) [report; notes] [] = inr ([] ++ items)
      /\ Forall2
           (fun document item =>
              exists url,
                getitem (Some document) "href" = inr url
                /\ item = @document_item (env []) document url)
           [report; notes] items.
Proof.
  assert (Hlinked : forall document,
             In document [report; notes] -> has_attr document "href").
  { intros document [<- | [<- | []]]; eexists; right; left; reflexivity. }
  split; [exact Hlinked |].
  apply (@document_loop_all_linked (env []) [report; notes] []).
  exact Hlinked.
Defined.

Lemma document_loop_without_link_witness :
  In loose_document [report; loose_document; notes]
  /\ ~ has_attr loose_document "href"
  /\ @document_loop (env []) [report; loose_document; notes] [] = inl KeyError.
Proof.
  assert (Hno : ~ has_attr loose_document "href").
  { intros [v Hin]. simpl in Hin. destruct Hin as [Hin | []]. discriminate. }
  split; [right; left; reflexivity |].
  split; [exact Hno |].
  apply (@document_loop_without_link (env [])
           [report; loose_document; notes] loose_document []).
  - right; left; reflexivity.
  - exact Hno.
Defined.

Lemma location_without_parameter_witness :
  getitem (Some unzoomed_location) "href"
  = inr "https://maps.google.com/maps?q=40.1,-73.9"%string
  /\ ((forall v,
          ~ In ("q"%string, v)
              (fields_of (query_of "https://maps.google.com/maps?q=40.1,-73.9")))
      \/ ((exists q qs,
              dict_get
                (fields_of (query_of "https://maps.google.com/maps?q=40.1,-73.9"))
                "q" = inr (q :: qs))
          /\ forall v,
              ~ In ("z"%string, v)
                  (fields_of (query_of "https://maps.google.com/maps?q=40.1,-73.9"))))
  /\ @location_item (env []) unzoomed_location = inl KeyError.
Proof.
  assert (Hquery :
            (exists q qs,
                dict_get
                  (fields_of (query_of "https://maps.google.com/maps?q=40.1,-73.9"))
                  "q" = inr (q :: qs))
            /\ forall v,
                ~ In ("z"%string, v)
                    (fields_of (query_of "https://maps.google.com/maps?q=40.1,-73.9"))).
  { split.
    - exists "40.1,-73.9"%string, []. reflexivity.
    - intros v Hin. vm_compute in Hin. destruct Hin as [Hin | []]. discriminate. }
  split; [reflexivity |].
  split; [right; exact Hquery |].
  apply (@location_without_parameter (env []) unzoomed_location
           "https://maps.google.com/maps?q=40.1,-73.9").
  - reflexivity.
  - right. exact Hquery.
Defined.

Lemma location_with_odd_coordinates_witness :
  getitem (Some named_location) "href"
  = inr "https://maps.google.com/maps?q=Paris&z=15"%string
  /\ dict_get (fields_of (query_of "https://maps.google.com/maps?q=Paris&z=15")) "q"
     = inr ["Paris"%string]
  /\ dict_get (fields_of (query_of "https://maps.google.com/maps?q=Paris&z=15")) "z"
     = inr ["15"%string]
  /\ length (split "," "Paris") <> 2
  /\ @location_item (env []) named_location = inl ValueError.
Proof.
  split; [reflexivity |].
  split; [reflexivity |].
  split; [reflexivity |].
  split; [discriminate |].
  apply (@location_with_odd_coordinates (env []) named_location
           "https://maps.google.com/maps?q=Paris&z=15" "Paris" "15" [] []);
    try reflexivity.
  discriminate.
Defined.

Lemma poll_loop_items_witness :
  @poll_loop (env []) [drink_poll] []
  = inr ([] ++ [CPoll "poll" "Tea or coffee?" "Anonymous poll"
                  [mkPollOption "60%" "tea"; mkPollOption "40%" "coffee"]])
  /\ Forall2 (@option_read (env []))
       (@select (env []) (selector (POLL_OPTIONS types)) drink_poll)
       [mkPollOption "60%" "tea"; mkPollOption "40%" "coffee"].
Proof.
  split; [vm_compute; reflexivity |].
  destruct (@poll_loop_items (env []) [drink_poll] []
              [CPoll "poll" "Tea or coffee?" "Anonymous poll"
                 [mkPollOption "60%" "tea"; mkPollOption "40%" "coffee"]]
              ltac:(vm_compute; reflexivity))
    as (items & Hitems & Hread).
  simpl in Hitems. subst items.
  inversion Hread as [| poll item polls items' Hone _]; subst.
  destruct Hone as (question & kind & entries & Hitem & _ & _ & Hentries).
  inversion Hitem; subst. exact Hentries.
Defined.
